(** * Expense tracker: a shallow embedding of EXPENSE_TRACKER.py

    The program keeps two JSON documents, [expenses.json] (a list of
    expense records) and [budget.json] (a dictionary from month number,
    as text, to a ceiling), and offers one sub-command per invocation.
    Every command is embedded as a computation in a state monad over a
    [world] that holds the two documents, the files written by
    [export_csv], the wall clock and the text printed so far. *)

From Stdlib Require Import ZArith String List Bool Lia.
From Stdlib Require Import Floats.PrimFloat Floats.SpecFloat Floats.FloatOps.
From stdpp Require Import gmap strings list pretty.
From stdpp Require Import sorting.

Open Scope Z_scope.

(** ** The Python built-ins the program calls *)

Module Py.

(** [str(n)] for an integer. *)
Definition str (n : Z) : string := pretty n.

(** Truth value of an optional string argument: [None] and the empty
    string are both false. *)
Definition truthy (o : option string) : bool :=
  match o with
  | Some s => negb (String.eqb s "")
  | None => false
  end.

(** Truth value of an optional integer argument: [None] and [0] are false. *)
Definition truthy_int (o : option Z) : bool :=
  match o with
  | Some n => negb (n =? 0)
  | None => false
  end.

(** [x <= 0] and [x > y] on floats; every comparison with NaN is false. *)
Definition le0 (x : float) : bool := PrimFloat.leb x 0%float.
Definition gt (x y : float) : bool := PrimFloat.ltb y x.

(** [sum(xs)]: accumulation from left to right, starting at zero. *)
Definition sum (xs : list float) : float := fold_left PrimFloat.add xs 0%float.

(** [max(xs)] over a non-empty sequence with first element [x]. *)
Definition max (x : Z) (xs : list Z) : Z := fold_left Z.max xs x.

(** The integer nearest to [m * 2^e * 100], ties to even: the exact
    decimal rounding to two places behind [round(x, 2)] and ['.2f']. *)
Definition hundredths (m : positive) (e : Z) : Z :=
  let n := Z.pos m * 100 in
  if 0 <=? e then n * 2 ^ e
  else
    let d := 2 ^ (- e) in
    let q := n / d in
    let r := n mod d in
    if 2 * r <? d then q
    else if d <? 2 * r then q + 1
    else if Z.even q then q else q + 1.

(** [round(x, 2)]: the float nearest to the two-place decimal rounding of
    [x]; zeros, infinities and NaN are returned as they are. *)
Definition round2 (x : float) : float :=
  match Prim2SF x with
  | S754_finite s m e =>
      match hundredths m e with
      | Z.pos n => SF2Prim (SFdiv prec emax (S754_finite s n 0) (S754_finite false 100 0))
      | _ => SF2Prim (S754_zero s)
      end
  | _ => x
  end.

Definition two_digits (n : Z) : string :=
  if n <? 10 then "0" +:+ str n else str n.

Definition sign_text (s : bool) : string := if s then "-" else "".

(** [format(x, '.2f')]. *)
Definition format_2f (x : float) : string :=
  match Prim2SF x with
  | S754_nan => "nan"
  | S754_infinity s => sign_text s +:+ "inf"
  | S754_zero s => sign_text s +:+ "0.00"
  | S754_finite s m e =>
      let n := hundredths m e in
      sign_text s +:+ str (n / 100) +:+ "." +:+ two_digits (n mod 100)
  end.

Fixpoint repeat_char (c : string) (n : nat) : string :=
  match n with
  | O => ""
  | S k => c +:+ repeat_char c k
  end.

(** [format(s, ' <w')]: pad with spaces on the right up to width [w]. *)
Definition ljust (w : nat) (s : string) : string :=
  s +:+ repeat_char " " (w - String.length s).

(** [s[:n]]. *)
Definition prefix (n : nat) (s : string) : string := String.substring 0 n s.

(** [strftime('%B')] of a month number, in the default (C) locale. *)
Definition month_name (m : Z) : string :=
  match m with
  | 1 => "January" | 2 => "February" | 3 => "March" | 4 => "April"
  | 5 => "May" | 6 => "June" | 7 => "July" | 8 => "August"
  | 9 => "September" | 10 => "October" | 11 => "November" | 12 => "December"
  | _ => ""
  end.

Definition zero_pad (w : nat) (n : Z) : string :=
  repeat_char "0" (w - String.length (str n)) +:+ str n.

End Py.

(** ** Data model *)

(** A calendar date.  The JSON document stores its ["%Y-%m-%d"] text,
    which [datetime.strptime] reads back; the model keeps the date. *)
Record date := Date { year : Z; month : Z; day : Z }.

Definition strftime_ymd (d : date) : string :=
  Py.zero_pad 4 (year d) +:+ "-" +:+ Py.zero_pad 2 (month d) +:+ "-" +:+ Py.zero_pad 2 (day d).

(** One expense: the dictionary with keys id, date, description, amount
    and category.  The program reads the category with a default, so a
    dictionary without that key is the record with the empty category. *)
Record expense_record := Expense {
  exp_id : Z;
  exp_date : date;
  exp_description : string;
  exp_amount : float;
  exp_category : string
}.

Definition set_description (s : string) (e : expense_record) : expense_record :=
  Expense (exp_id e) (exp_date e) s (exp_amount e) (exp_category e).
Definition set_amount (a : float) (e : expense_record) : expense_record :=
  Expense (exp_id e) (exp_date e) (exp_description e) a (exp_category e).
Definition set_category (c : string) (e : expense_record) : expense_record :=
  Expense (exp_id e) (exp_date e) (exp_description e) (exp_amount e) c.

(** A cell of an exported CSV row, before the writer renders it. *)
Inductive csv_cell :=
  | CellInt (n : Z)
  | CellStr (s : string)
  | CellFloat (x : float).

(** The machine state one invocation runs in.  A document that does not
    exist yet is [None].  Files written by [export_csv] are kept apart
    from the two JSON documents: an export file name is taken to denote
    another file than [expenses.json] and [budget.json]. *)
Record world := World {
  expenses_json : option (list expense_record);
  budget_json : option (gmap string float);
  csv_files : gmap string (list (list csv_cell));
  clock : date;
  stdout : list string
}.

(** ** The state monad of commands *)

Definition M (A : Type) : Type := world -> A * world.

Definition ret {A} (a : A) : M A := fun w => (a, w).
Definition bind {A B} (m : M A) (k : A -> M B) : M B :=
  fun w => let (a, w') := m w in k a w'.

Declare Scope cmd_scope.
Delimit Scope cmd_scope with cmd.
Notation "'let*' x := m 'in' k" := (bind m (fun x => k))
  (at level 10, x name, m at level 100, k at level 200) : cmd_scope.
Notation "m ;; k" := (bind m (fun _ => k))
  (at level 100, k at level 200, right associativity) : cmd_scope.
Open Scope cmd_scope.

Definition print (s : string) : M unit :=
  fun w => (tt, World (expenses_json w) (budget_json w) (csv_files w) (clock w) (stdout w ++ [s])).

Definition datetime_now : M date := fun w => (clock w, w).

Definition load_expenses : M (list expense_record) :=
  fun w => (default [] (expenses_json w), w).

Definition save_expenses (expenses : list expense_record) : M unit :=
  fun w => (tt, World (Some expenses) (budget_json w) (csv_files w) (clock w) (stdout w)).

Definition load_budget : M (gmap string float) :=
  fun w => (default ∅ (budget_json w), w).

Definition save_budget (budget : gmap string float) : M unit :=
  fun w => (tt, World (expenses_json w) (Some budget) (csv_files w) (clock w) (stdout w)).

Definition write_csv (filename : string) (rows : list (list csv_cell)) : M unit :=
  fun w => (tt, World (expenses_json w) (budget_json w) (<[filename := rows]> (csv_files w))
                      (clock w) (stdout w)).

(** ** Arguments of the sub-commands, as argparse delivers them *)

Record add_args := AddArgs {
  add_description : string;
  add_amount : float;
  add_category : option string
}.

Record update_args := UpdateArgs {
  upd_id : Z;
  upd_description : option string;
  upd_amount : option float;
  upd_category : option string
}.

Record budget_args := BudgetArgs {
  bud_month : Z;
  bud_amount : float
}.

Record export_args := ExportArgs {
  exp_filename : string;
  exp_filter : option string
}.

(** ** The commands *)

Definition generate_new_id (expenses : list expense_record) : Z :=
  match map exp_id expenses with
  | [] => 1
  | x :: xs => Py.max x xs + 1
  end.

(** The records of one month of one year, as both budget checks and the
    monthly summary select them. *)
Definition in_month (m y : Z) (e : expense_record) : Prop :=
  month (exp_date e) = m /\ year (exp_date e) = y.

#[global] Instance in_month_dec m y e : Decision (in_month m y e).
Proof. unfold in_month. apply _. Defined.

Definition exceeded_text (budget_amt : float) (dt : date) : string :=
  "Warning: You have exceeded your budget ($" +:+ Py.format_2f budget_amt
    +:+ ") for " +:+ Py.month_name (month dt) +:+ ".".

Definition warn_budget_if_needed (additional : float) (date_str : date)
    (all_expenses : list expense_record) : M unit :=
  let dt := date_str in
  let* budget := load_budget in
  let m := Py.str (month dt) in
  match budget !! m with
  | Some budget_amt =>
      let month_expenses :=
        map exp_amount (filter (in_month (month dt) (year dt)) all_expenses) in
      let total := Py.sum month_expenses in
      if Py.gt total budget_amt then print (exceeded_text budget_amt dt)
      else ret tt
  | None => ret tt
  end.

Definition exceed_text (budget_amt : float) : string :=
  "Warning: Total expenses exceed the set budget ($" +:+ Py.format_2f budget_amt
    +:+ ") for this month.".

Definition show_budget_warning_if_exceeded (month : Z) (month_total : float) : M unit :=
  let* budget := load_budget in
  match budget !! Py.str month with
  | Some budget_amt =>
      if Py.gt month_total budget_amt then print (exceed_text budget_amt)
      else ret tt
  | None => ret tt
  end.

Definition add_expense (args : add_args) : M unit :=
  let* expenses := load_expenses in
  if Py.le0 (add_amount args) then print "Error: Amount must be a positive number."
  else
    let* now := datetime_now in
    let expense :=
      {| exp_id := generate_new_id expenses;
         exp_date := now;
         exp_description := add_description args;
         exp_amount := Py.round2 (add_amount args);
         exp_category :=
           if Py.truthy (add_category args) then default "" (add_category args) else "" |} in
    let expenses := expenses ++ [expense] in
    save_expenses expenses ;;
    warn_budget_if_needed (exp_amount expense) (exp_date expense) expenses ;;
    print ("Expense added successfully (ID: " +:+ Py.str (exp_id expense) +:+ ")").

(** How the scan of [update_expense] over the records ends: by the
    [return] after the amount check, by the [break] after saving, or by
    running off the end of the list. *)
Inductive loop_exit := Returned | Broke | Exhausted.

Definition not_found_text (n : Z) : string :=
  "Error: Expense with ID " +:+ Py.str n +:+ " not found.".

(** The [for expense in expenses] loop.  [before] holds the records
    already passed and [rest] those still to visit; a store to a field of
    [expense] changes the list in memory, which is what gets saved. *)
Fixpoint update_loop (args : update_args) (before rest : list expense_record) : M loop_exit :=
  match rest with
  | [] => ret Exhausted
  | expense :: after =>
      if decide (exp_id expense = upd_id args) then
        let expense :=
          if Py.truthy (upd_description args)
          then set_description (default "" (upd_description args)) expense
          else expense in
        let finish (expense : expense_record) : M loop_exit :=
          let expense :=
            if Py.truthy (upd_category args)
            then set_category (default "" (upd_category args)) expense
            else expense in
          save_expenses (before ++ expense :: after) ;;
          print "Expense updated successfully" ;;
          ret Broke in
        match upd_amount args with
        | Some amount =>
            if Py.le0 amount then
              print "Error: Amount must be positive." ;;
              ret Returned
            else finish (set_amount (Py.round2 amount) expense)
        | None => finish expense
        end
      else update_loop args (before ++ [expense]) after
  end.

Definition update_expense (args : update_args) : M unit :=
  let* expenses := load_expenses in
  let* exit := update_loop args [] expenses in
  match exit with
  | Exhausted => print (not_found_text (upd_id args))
  | Returned | Broke => ret tt
  end.

Definition delete_expense (id : Z) : M unit :=
  let* expenses := load_expenses in
  let prev_count := length expenses in
  let expenses := filter (fun e => exp_id e <> id) expenses in
  if decide (length expenses <> prev_count) then
    save_expenses expenses ;;
    print "Expense deleted successfully"
  else print (not_found_text id).

(** The category filter shared by [list_expenses] and [export_csv]. *)
Definition by_category (category : option string) (expenses : list expense_record) : list expense_record :=
  if Py.truthy category
  then filter (fun e => exp_category e = default "" category) expenses
  else expenses.

Definition list_row (e : expense_record) : string :=
  let cat := exp_category e in
  Py.ljust 3 (Py.str (exp_id e)) +:+ " " +:+ strftime_ymd (exp_date e) +:+ "  "
    +:+ Py.ljust 14 (Py.prefix 12 (exp_description e)) +:+ " $"
    +:+ Py.ljust 7 (Py.format_2f (exp_amount e)) +:+ " " +:+ cat.

Fixpoint print_all (lines : list string) : M unit :=
  match lines with
  | [] => ret tt
  | s :: rest => print s ;; print_all rest
  end.

Definition list_header : string := "ID  Date        Description      Amount   Category".

Definition list_expenses (category : option string) : M unit :=
  let* expenses := load_expenses in
  let expenses := by_category category expenses in
  match expenses with
  | [] => print "No expenses found."
  | _ =>
      print list_header ;;
      print (Py.repeat_char "-" 50) ;;
      print_all (map list_row expenses)
  end.

(** The records [summary_expenses] adds up, and their total. *)
Definition summary_filtered (month : option Z) (now : date) (expenses : list expense_record)
    : list expense_record :=
  if Py.truthy_int month
  then filter (in_month (default 0 month) (year now)) expenses
  else expenses.

Definition summary_total (month : option Z) (now : date) (expenses : list expense_record) : float :=
  Py.sum (map exp_amount (summary_filtered month now expenses)).

Definition summary_expenses (month : option Z) : M unit :=
  let* expenses := load_expenses in
  let* now := datetime_now in
  let total := summary_total month now expenses in
  if Py.truthy_int month then
    print ("Total expenses for " +:+ Py.month_name (default 0 month) +:+ ": $"
             +:+ Py.format_2f total) ;;
    show_budget_warning_if_exceeded (default 0 month) total
  else print ("Total expenses: $" +:+ Py.format_2f total).

Definition set_budget (args : budget_args) : M unit :=
  if Py.le0 (bud_amount args) then print "Error: Budget amount must be positive."
  else
    let* budget := load_budget in
    let budget := <[Py.str (bud_month args) := Py.round2 (bud_amount args)]> budget in
    save_budget budget ;;
    print ("Budget of $" +:+ Py.format_2f (bud_amount args) +:+ " set for month "
             +:+ Py.month_name (bud_month args) +:+ ".").

Definition csv_header : list csv_cell :=
  [CellStr "id"; CellStr "date"; CellStr "description"; CellStr "amount"; CellStr "category"].

Definition csv_row (e : expense_record) : list csv_cell :=
  [CellInt (exp_id e); CellStr (strftime_ymd (exp_date e)); CellStr (exp_description e);
   CellFloat (exp_amount e); CellStr (exp_category e)].

Definition export_csv (args : export_args) : M unit :=
  let* expenses := load_expenses in
  let expenses := by_category (exp_filter args) expenses in
  match expenses with
  | [] => print "No expenses to export."
  | _ =>
      write_csv (exp_filename args) (csv_header :: map csv_row expenses) ;;
      print ("Exported expenses to " +:+ exp_filename args)
  end.

(** One invocation of the program. *)
Inductive command :=
  | Add (args : add_args)
  | Update (args : update_args)
  | Delete (id : Z)
  | ListAll (category : option string)
  | Summary (month : option Z)
  | SetBudget (args : budget_args)
  | ExportCsv (args : export_args).

Definition month_choice (m : Z) : bool := (1 <=? m) && (m <=? 12).

(** [main]: the parser refuses a month outside [range(1, 13)] before any
    command runs (its message goes to the error stream); otherwise the
    chosen function is called. *)
Definition main (c : command) : M unit :=
  match c with
  | Add args => add_expense args
  | Update args => update_expense args
  | Delete id => delete_expense id
  | ListAll category => list_expenses category
  | Summary None => summary_expenses None
  | Summary (Some m) => if month_choice m then summary_expenses (Some m) else ret tt
  | SetBudget args => if month_choice (bud_month args) then set_budget args else ret tt
  | ExportCsv args => export_csv args
  end.

(** A session: successive invocations, each started at its own date. *)
Definition set_clock (d : date) : M unit :=
  fun w => (tt, World (expenses_json w) (budget_json w) (csv_files w) d (stdout w)).

Fixpoint session (cs : list (date * command)) : M unit :=
  match cs with
  | [] => ret tt
  | (d, c) :: rest => set_clock d ;; main c ;; session rest
  end.

Definition run {A} (m : M A) (w : world) : world := snd (m w).

Definition fresh (d : date) : world := World None None ∅ d [].

Definition store (w : world) : list expense_record := default [] (expenses_json w).

(** ** Vocabulary of the statements *)

(** The world after one more printed line, and after a save. *)
Definition emit (line : string) (w : world) : world :=
  World (expenses_json w) (budget_json w) (csv_files w) (clock w) (stdout w ++ [line]).

Definition emit_all (lines : list string) (w : world) : world :=
  World (expenses_json w) (budget_json w) (csv_files w) (clock w) (stdout w ++ lines).

Definition saved (expenses : list expense_record) (w : world) : world :=
  World (Some expenses) (budget_json w) (csv_files w) (clock w) (stdout w).

(** The error kinds of the specification and the lines that report them. *)
Inductive error_kind := InvalidAmount | NotFound | EmptyResult.

Definition reported (k : error_kind) (line : string) : Prop :=
  match k with
  | InvalidAmount =>
      line ∈ ["Error: Amount must be a positive number."; "Error: Amount must be positive.";
              "Error: Budget amount must be positive."]
  | NotFound => exists n, line = not_found_text n
  | EmptyResult => line ∈ ["No expenses found."; "No expenses to export."]
  end.

(** A command fails with kind [k]: it prints one line reporting [k] and
    changes nothing else, in particular neither JSON document nor any
    exported file. *)
Definition fails_with (k : error_kind) (m : M unit) (w : world) : Prop :=
  exists line, reported k line /\ m w = (tt, emit line w).

(** The record [update_expense] leaves in place of a matching one when
    the amount check passes. *)
Definition updated (args : update_args) (e : expense_record) : expense_record :=
  let e1 :=
    if Py.truthy (upd_description args)
    then set_description (default "" (upd_description args)) e else e in
  let e2 :=
    match upd_amount args with
    | Some a => set_amount (Py.round2 a) e1
    | None => e1
    end in
  if Py.truthy (upd_category args)
  then set_category (default "" (upd_category args)) e2 else e2.

Definition amount_rejected (args : update_args) : bool :=
  match upd_amount args with
  | Some a => Py.le0 a
  | None => false
  end.

(** [s] occurs in [t]. *)
Definition occurs_in (s t : string) : Prop := exists a b, t = a +:+ s +:+ b.

(** [m] is the largest identifier of a non-empty store. *)
Definition max_id (m : Z) (expenses : list expense_record) : Prop :=
  m ∈ map exp_id expenses /\ forall e, e ∈ expenses -> exp_id e <= m.

(** The rule both call sites are meant to follow: with a ceiling set and
    a total strictly above it, one warning line built from the ceiling;
    otherwise nothing. *)
Definition threshold_warning (ceiling : option float) (total : float)
    (text : float -> string) : list string :=
  match ceiling with
  | Some c => if Py.gt total c then [text c] else []
  | None => []
  end.

Definition ceiling_of (w : world) (m : Z) : option float :=
  default ∅ (budget_json w) !! Py.str m.

(** The total [warn_budget_if_needed] recomputes after an add. *)
Definition month_total (dt : date) (all_expenses : list expense_record) : float :=
  Py.sum (map exp_amount (filter (in_month (month dt) (year dt)) all_expenses)).

(** The record [add_expense] builds in world [w]. *)
Definition new_expense (args : add_args) (w : world) : expense_record :=
  {| exp_id := generate_new_id (store w);
     exp_date := clock w;
     exp_description := add_description args;
     exp_amount := Py.round2 (add_amount args);
     exp_category :=
       if Py.truthy (add_category args) then default "" (add_category args) else "" |}.

(** A text field of a record is not emptied: if it is empty afterwards,
    it was empty before. *)
Definition not_cleared (e e' : expense_record) : Prop :=
  (exp_description e' = "" -> exp_description e = "") /\
  (exp_category e' = "" -> exp_category e = "").

(** ** Sample worlds for the worked cases *)

Definition june_world : world :=
  World (Some [Expense 1 (Date 2024 6 1) "Rent" 70%float "home";
               Expense 2 (Date 2024 6 9) "Food" 50%float "food";
               Expense 3 (Date 2023 6 9) "Old" 500%float "food"])
        (Some {[ "6"%string := 100%float ]}) ∅ (Date 2024 6 9) [].

Definition rent_world : world :=
  World (Some [Expense 1 (Date 2024 6 1) "Rent" 70%float "home";
               Expense 2 (Date 2024 6 9) "Food" 50%float "food"])
        None ∅ (Date 2024 6 9) [].

Definition mixed_world : world :=
  World (Some [Expense 1 (Date 2024 6 1) "Rent" 70%float "home";
               Expense 2 (Date 2024 6 9) "Lunch" 12.5%float "food";
               Expense 3 (Date 2024 6 9) "Stamp" 1.5%float "";
               Expense 4 (Date 2024 6 9) "Tea" 3%float "Food";
               Expense 5 (Date 2024 6 9) "Bread" 2.25%float "food"])
        None ∅ (Date 2024 6 9) [].

Definition today : date := Date 2024 6 9.

Definition two_adds : list (date * command) :=
  [(today, Add (AddArgs "Coffee" 4.5%float (Some "food"%string)));
   (today, Add (AddArgs "Book" 20%float None))].

Definition june_session : list (date * command) :=
  [(today, SetBudget (BudgetArgs 6 100%float));
   (today, Add (AddArgs "Rent" 50%float (Some "home"%string)));
   (today, Add (AddArgs "Food" 40%float None));
   (today, Add (AddArgs "Books" 30%float None));
   (today, Summary (Some 6))].

(** ** Basic facts *)

(** A ceiling of 100 for June and three June expenses of 50, 40 and 30:
    the third add warns, and so does the summary of June. *)
Example june_session_output :
  stdout (run (session june_session) (fresh today))
    = ["Budget of $100.00 set for month June."%string;
       "Expense added successfully (ID: 1)"%string;
       "Expense added successfully (ID: 2)"%string;
       "Warning: You have exceeded your budget ($100.00) for June."%string;
       "Expense added successfully (ID: 3)"%string;
       "Total expenses for June: $120.00"%string;
       "Warning: Total expenses exceed the set budget ($100.00) for this month."%string].
Proof. vm_compute. reflexivity. Qed.

(** Closes a goal from [H : x ∈ [a; b; ...]] when it fails for each of the
    listed elements by a clash of constructors. *)
Ltac none_of_listed H :=
  vm_compute in H;
  repeat (apply elem_of_cons in H as [->|H]; [discriminate|]);
  inversion H.

Lemma store_emit line w : store (emit line w) = store w.
Proof. reflexivity. Qed.

Lemma print_all_run lines w : print_all lines w = (tt, emit_all lines w).
Proof.
  revert w. induction lines as [|s lines IH]; intros [ej bj cf ck out].
  - cbn. unfold emit_all. cbn. by rewrite app_nil_r.
  - cbn. rewrite IH. unfold emit_all. cbn. by rewrite <- app_assoc.
Qed.

Lemma py_max_ge x xs : x <= Py.max x xs /\ forall y, y ∈ xs -> y <= Py.max x xs.
Proof.
  unfold Py.max. revert x. induction xs as [|z xs IH]; intros x; cbn.
  - split; [lia|]. intros y Hy. inversion Hy.
  - destruct (IH (Z.max x z)) as [H1 H2]. split; [lia|].
    intros y Hy. apply elem_of_cons in Hy as [->|Hy]; [lia|auto].
Qed.

Lemma py_max_elem x xs : Py.max x xs ∈ x :: xs.
Proof.
  unfold Py.max. revert x. induction xs as [|z xs IH]; intros x; cbn.
  - apply list_elem_of_here.
  - specialize (IH (Z.max x z)). apply elem_of_cons in IH as [Heq|Hin].
    + rewrite Heq. destruct (Z.max_spec x z) as [[_ ->]|[_ ->]].
      * apply list_elem_of_further, list_elem_of_here.
      * apply list_elem_of_here.
    + by do 2 apply list_elem_of_further.
Qed.

Lemma generate_new_id_nil : generate_new_id [] = 1.
Proof. reflexivity. Qed.

Lemma generate_new_id_gt expenses e :
  e ∈ expenses -> exp_id e < generate_new_id expenses.
Proof.
  intros He. unfold generate_new_id.
  assert (Hin : exp_id e ∈ map exp_id expenses) by (apply list_elem_of_fmap; eauto).
  destruct (map exp_id expenses) as [|x xs]; [inversion Hin|].
  destruct (py_max_ge x xs) as [H1 H2].
  apply elem_of_cons in Hin as [->|Hin]; [lia|]. specialize (H2 _ Hin). lia.
Qed.

Lemma generate_new_id_max m expenses :
  max_id m expenses -> generate_new_id expenses = m + 1.
Proof.
  intros [Hin Hub]. unfold generate_new_id.
  destruct (map exp_id expenses) as [|x xs] eqn:E; [inversion Hin|].
  pose proof (py_max_elem x xs) as Hm. rewrite <- E in Hm.
  apply list_elem_of_fmap in Hm as (e & He1 & He2).
  assert (Py.max x xs <= m) by (rewrite He1; auto).
  destruct (py_max_ge x xs) as [H1 H2].
  apply elem_of_cons in Hin as [->|Hin]; [lia|]. specialize (H2 _ Hin). lia.
Qed.

(** ** The scan of [update_expense] *)

Lemma first_match (n : Z) (l : list expense_record) :
  Forall (fun e => exp_id e <> n) l \/
  exists pre e post,
    l = pre ++ e :: post /\ Forall (fun x => exp_id x <> n) pre /\ exp_id e = n.
Proof.
  induction l as [|x l IH]; [by left|].
  destruct (decide (exp_id x = n)) as [Heq|Hne].
  - right. exists [], x, l. by repeat split.
  - destruct IH as [Hall|(pre & e & post & -> & Hpre & He)].
    + left. by constructor.
    + right. exists (x :: pre), e, post. repeat split; [|done]. by constructor.
Qed.

Lemma update_loop_no_match args before rest w :
  Forall (fun e => exp_id e <> upd_id args) rest ->
  update_loop args before rest w = (Exhausted, w).
Proof.
  intros Hall. revert before.
  induction Hall as [|x rest Hx _ IH]; intros before; cbn; [done|].
  destruct (decide (exp_id x = upd_id args)); [done|]. apply IH.
Qed.

Lemma update_loop_match args before pre e post w :
  Forall (fun x => exp_id x <> upd_id args) pre ->
  exp_id e = upd_id args ->
  update_loop args before (pre ++ e :: post) w =
    if amount_rejected args
    then (Returned, emit "Error: Amount must be positive." w)
    else (Broke, emit "Expense updated successfully"
                   (saved ((before ++ pre) ++ updated args e :: post) w)).
Proof.
  intros Hpre He. revert before.
  induction Hpre as [|x pre Hx _ IH]; intros before.
  - cbn [app update_loop]. rewrite app_nil_r.
    destruct (decide (exp_id e = upd_id args)) as [_|Hne]; [|done].
    unfold amount_rejected, updated.
    destruct (upd_amount args) as [a|]; [destruct (Py.le0 a)|]; reflexivity.
  - cbn [app update_loop].
    destruct (decide (exp_id x = upd_id args)); [done|].
    rewrite IH. by rewrite <- (app_assoc before [x] pre).
Qed.

(** What one call of [update_expense] does, by the first record that
    carries the identifier. *)
Lemma update_expense_cases args w :
  (Forall (fun e => exp_id e <> upd_id args) (store w) /\
   update_expense args w = (tt, emit (not_found_text (upd_id args)) w))
  \/
  (exists pre e post,
     store w = pre ++ e :: post /\
     Forall (fun x => exp_id x <> upd_id args) pre /\
     exp_id e = upd_id args /\
     update_expense args w =
       (tt, if amount_rejected args
            then emit "Error: Amount must be positive." w
            else emit "Expense updated successfully"
                   (saved (pre ++ updated args e :: post) w))).
Proof.
  destruct (first_match (upd_id args) (store w))
    as [Hall|(pre & e & post & Hst & Hpre & He)].
  - left. split; [done|]. unfold update_expense, bind, load_expenses.
    fold (store w). by rewrite update_loop_no_match.
  - right. exists pre, e, post. repeat split; try done.
    unfold update_expense, bind, load_expenses. fold (store w). rewrite Hst.
    rewrite update_loop_match by done. by destruct (amount_rejected args).
Qed.

Lemma updated_id args e : exp_id (updated args e) = exp_id e.
Proof.
  unfold updated. destruct (Py.truthy (upd_category args)), (upd_amount args),
    (Py.truthy (upd_description args)); reflexivity.
Qed.

Lemma updated_date args e : exp_date (updated args e) = exp_date e.
Proof.
  unfold updated. destruct (Py.truthy (upd_category args)), (upd_amount args),
    (Py.truthy (upd_description args)); reflexivity.
Qed.

Lemma truthy_Some s : Py.truthy (Some s) = true -> s <> "".
Proof.
  cbn. intros H ->. discriminate.
Qed.

Lemma truthy_nonempty s : s <> "" -> Py.truthy (Some s) = true.
Proof.
  intros Hs. cbn. destruct (String.eqb_spec s ""); [done|reflexivity].
Qed.

(** ** The budget-threshold check *)

Lemma emit_all_nil w : emit_all [] w = w.
Proof. destruct w. unfold emit_all. cbn. by rewrite app_nil_r. Qed.

Lemma emit_all_one line w : emit_all [line] w = emit line w.
Proof. reflexivity. Qed.

Lemma occurs_in_middle a s b : occurs_in s (a +:+ s +:+ b).
Proof. by exists a, b. Qed.

Lemma append_cons ch (a b : string) : String ch a +:+ b = String ch (a +:+ b).
Proof. reflexivity. Qed.

Lemma append_assoc (a b c : string) : (a +:+ b) +:+ c = a +:+ (b +:+ c).
Proof.
  induction a as [|ch a IH]; [reflexivity|]. rewrite !append_cons. by rewrite IH.
Qed.

Lemma warn_budget_if_needed_run additional dt all_expenses w :
  warn_budget_if_needed additional dt all_expenses w
    = (tt, emit_all (threshold_warning (ceiling_of w (month dt))
                       (month_total dt all_expenses)
                       (fun c => exceeded_text c dt)) w).
Proof.
  unfold warn_budget_if_needed, bind, load_budget, threshold_warning, ceiling_of.
  fold (month_total dt all_expenses).
  destruct (default ∅ (budget_json w) !! Py.str (month dt)) as [c|].
  - destruct (Py.gt (month_total dt all_expenses) c).
    + by rewrite emit_all_one.
    + by rewrite emit_all_nil.
  - by rewrite emit_all_nil.
Qed.

Lemma show_budget_warning_run m total w :
  show_budget_warning_if_exceeded m total w
    = (tt, emit_all (threshold_warning (ceiling_of w m) total exceed_text) w).
Proof.
  unfold show_budget_warning_if_exceeded, bind, load_budget, threshold_warning, ceiling_of.
  destruct (default ∅ (budget_json w) !! Py.str m) as [c|].
  - destruct (Py.gt total c).
    + by rewrite emit_all_one.
    + by rewrite emit_all_nil.
  - by rewrite emit_all_nil.
Qed.

(** C1, as stated, fails: with a ceiling of 100 for June and a June total
    of 120, both checks warn, but with different texts, and only the
    post-add text names the month. *)
Lemma budget_warning_texts_differ :
  stdout (run (warn_budget_if_needed 50%float (Date 2024 6 9) (store june_world)) june_world)
    = ["Warning: You have exceeded your budget ($100.00) for June."%string] /\
  stdout (run (show_budget_warning_if_exceeded 6 120%float) june_world)
    = ["Warning: Total expenses exceed the set budget ($100.00) for this month."%string] /\
  run (warn_budget_if_needed 50%float (Date 2024 6 9) (store june_world)) june_world
    <> run (show_budget_warning_if_exceeded 6 (month_total (Date 2024 6 9) (store june_world)))
         june_world.
Proof.
  split; [vm_compute; reflexivity|]. split; [vm_compute; reflexivity|].
  intros H. apply (f_equal stdout) in H. vm_compute in H. discriminate H.
Qed.

(** C1 (amended): the post-add check and the summary-time check apply the
    same threshold rule: each prints one warning exactly when a ceiling is
    set for the month and the total is strictly above it, and nothing
    otherwise.  Both texts contain the ceiling with two decimals; the
    post-add text also contains the month's display name; the two texts
    are different. *)
Theorem budget_checks_share_threshold (w : world) (additional : float) (dt : date)
    (all_expenses : list expense_record) :
  warn_budget_if_needed additional dt all_expenses w
    = (tt, emit_all (threshold_warning (ceiling_of w (month dt))
                       (month_total dt all_expenses)
                       (fun c => exceeded_text c dt)) w) /\
  (forall total : float,
     show_budget_warning_if_exceeded (month dt) total w
       = (tt, emit_all (threshold_warning (ceiling_of w (month dt)) total exceed_text) w)) /\
  (forall c : float,
     occurs_in (Py.format_2f c) (exceeded_text c dt) /\
     occurs_in (Py.month_name (month dt)) (exceeded_text c dt) /\
     occurs_in (Py.format_2f c) (exceed_text c) /\
     exceeded_text c dt <> exceed_text c).
Proof.
  split; [|split].
  - apply warn_budget_if_needed_run.
  - intros total. apply show_budget_warning_run.
  - intros c. unfold exceeded_text, exceed_text. repeat split.
    + apply occurs_in_middle.
    + exists ("Warning: You have exceeded your budget ($" +:+ Py.format_2f c +:+ ") for "), ".".
      by rewrite !append_assoc.
    + apply occurs_in_middle.
    + rewrite !append_cons. discriminate.
Qed.

(** ** Update with a rejected amount *)

(** When a record with the identifier exists and the amount given to
    Update is caught by the test [amount <= 0], the call reports
    InvalidAmount and leaves the world as it was apart from the printed
    line: the expense document keeps its content, whatever description or
    category came with the call. *)
Theorem update_rejected_amount_saves_nothing (w : world) (args : update_args) (a : float) :
  upd_amount args = Some a ->
  Py.le0 a = true ->
  (exists e, e ∈ store w /\ exp_id e = upd_id args) ->
  update_expense args w = (tt, emit "Error: Amount must be positive." w) /\
  fails_with InvalidAmount (update_expense args) w /\
  expenses_json (run (update_expense args) w) = expenses_json w.
Proof.
  intros Ha Hle (e & Hin & He).
  assert (Hrej : amount_rejected args = true) by (unfold amount_rejected; by rewrite Ha).
  assert (Hrun : update_expense args w = (tt, emit "Error: Amount must be positive." w)).
  { destruct (update_expense_cases args w) as [[Hall _]|(pre & x & post & _ & _ & _ & Hrun)].
    - rewrite Forall_forall in Hall. by destruct (Hall e Hin).
    - by rewrite Hrej in Hrun. }
  split; [done|]. split.
  - exists "Error: Amount must be positive."%string. split; [|done].
    cbn. apply list_elem_of_further, list_elem_of_here.
  - unfold run. by rewrite Hrun.
Qed.

Lemma update_rejected_amount_saves_nothing_witness :
  let args := UpdateArgs 2 (Some "Groceries"%string) (Some (-3)%float) (Some "market"%string) in
  update_expense args rent_world = (tt, emit "Error: Amount must be positive." rent_world) /\
  fails_with InvalidAmount (update_expense args) rent_world /\
  expenses_json (run (update_expense args) rent_world) = expenses_json rent_world.
Proof.
  apply (update_rejected_amount_saves_nothing rent_world
           (UpdateArgs 2 (Some "Groceries"%string) (Some (-3)%float) (Some "market"%string))
           (-3)%float).
  - reflexivity.
  - vm_compute. reflexivity.
  - exists (Expense 2 (Date 2024 6 9) "Food" 50%float "food"). split; [|reflexivity].
    apply list_elem_of_further, list_elem_of_here.
Defined.

(** C2: the code at an amount that is not strictly positive and that the
    test [amount <= 0] misses.  The parser's [float] reads the argument
    "nan"; NaN is not greater than zero, yet [nan <= 0] is false as well,
    so Update does not report InvalidAmount: it stores the new
    description and NaN as the amount of record 2 and saves the
    document. *)
Lemma update_nan_amount_is_saved :
  let args := UpdateArgs 2 (Some "Groceries"%string) (Some nan) None in
  Py.gt nan 0%float = false /\
  Py.le0 nan = false /\
  run (update_expense args) rent_world
    = emit "Expense updated successfully"
        (saved [Expense 1 (Date 2024 6 1) "Rent" 70%float "home";
                Expense 2 (Date 2024 6 9) "Groceries" nan "food"] rent_world) /\
  expenses_json (run (update_expense args) rent_world) <> expenses_json rent_world /\
  ~ fails_with InvalidAmount (update_expense args) rent_world.
Proof.
  cbv zeta.
  assert (Hrun : update_expense (UpdateArgs 2 (Some "Groceries"%string) (Some nan) None)
                   rent_world
                 = (tt, emit "Expense updated successfully"
                          (saved [Expense 1 (Date 2024 6 1) "Rent" 70%float "home";
                                  Expense 2 (Date 2024 6 9) "Groceries" nan "food"]
                             rent_world)))
    by (vm_compute; reflexivity).
  split; [vm_compute; reflexivity|]. split; [vm_compute; reflexivity|].
  unfold run. rewrite Hrun. cbn [snd]. split; [reflexivity|]. split.
  - cbn. intros H.
    apply (f_equal (fun o => match o with
                             | Some (_ :: e :: _) => exp_description e
                             | _ => ""%string
                             end)) in H.
    cbn in H. discriminate H.
  - intros (line & Hrep & Hline). rewrite Hrun in Hline.
    apply (f_equal (fun r => stdout (snd r))) in Hline. cbn in Hline.
    injection Hline as <-. cbn in Hrep.
    repeat (apply elem_of_cons in Hrep as [Hrep|Hrep]; [discriminate Hrep|]).
    inversion Hrep.
Qed.

(** ** The store after each command *)

Lemma add_expense_rejected args w :
  Py.le0 (add_amount args) = true ->
  add_expense args w = (tt, emit "Error: Amount must be a positive number." w).
Proof.
  intros Hle. unfold add_expense, bind, load_expenses. by rewrite Hle.
Qed.

Lemma add_expense_accepted args w :
  Py.le0 (add_amount args) = false ->
  store (run (add_expense args) w) = store w ++ [new_expense args w] /\
  budget_json (run (add_expense args) w) = budget_json w /\
  csv_files (run (add_expense args) w) = csv_files w.
Proof.
  intros Hle. unfold run, add_expense, bind, load_expenses, datetime_now, save_expenses.
  rewrite Hle. cbn beta iota. rewrite warn_budget_if_needed_run. by cbn.
Qed.

Lemma filter_length_eq {A} (P : A -> Prop) `{!forall x, Decision (P x)} (l : list A) :
  length (filter P l) = length l -> filter P l = l.
Proof.
  induction l as [|x l IH]; [done|]. rewrite filter_cons.
  destruct (decide (P x)) as [HP|HP]; cbn; intros Hlen.
  - f_equal. apply IH. lia.
  - pose proof (length_filter P l). lia.
Qed.

Lemma delete_expense_store n w :
  store (run (delete_expense n) w) = filter (fun e => exp_id e <> n) (store w).
Proof.
  unfold run, delete_expense, bind, load_expenses. fold (store w).
  destruct (decide (length (filter (fun e => exp_id e <> n) (store w)) <> length (store w)))
    as [Hne|Heq]; cbn.
  - reflexivity.
  - symmetry. apply filter_length_eq.
    destruct (decide (length (filter (fun e => exp_id e <> n) (store w)) = length (store w)));
      [done|by destruct Heq].
Qed.

Lemma update_expense_ids args w :
  map exp_id (store (run (update_expense args) w)) = map exp_id (store w).
Proof.
  unfold run.
  destruct (update_expense_cases args w) as [[_ ->]|(pre & e & post & Hst & _ & _ & ->)];
    [done|].
  destruct (amount_rejected args); [done|]. cbn. rewrite Hst.
  rewrite !map_app. cbn. by rewrite updated_id.
Qed.

Lemma list_expenses_run category w :
  list_expenses category w =
    (tt, match by_category category (store w) with
         | [] => emit "No expenses found." w
         | shown => emit_all (list_header :: Py.repeat_char "-" 50 :: map list_row shown) w
         end).
Proof.
  unfold list_expenses, bind, load_expenses. fold (store w).
  destruct (by_category category (store w)) as [|e shown]; [done|].
  unfold print at 1 2. rewrite print_all_run. unfold emit_all. cbn.
  by rewrite <- !app_assoc.
Qed.

Lemma export_csv_run args w :
  export_csv args w =
    (tt, match by_category (exp_filter args) (store w) with
         | [] => emit "No expenses to export." w
         | selected =>
             World (expenses_json w) (budget_json w)
                   (<[exp_filename args := csv_header :: map csv_row selected]> (csv_files w))
                   (clock w)
                   (stdout w ++ ["Exported expenses to " +:+ exp_filename args])
         end).
Proof.
  unfold export_csv, bind, load_expenses. fold (store w).
  by destruct (by_category (exp_filter args) (store w)).
Qed.

Lemma summary_expenses_store m w : store (run (summary_expenses m) w) = store w.
Proof.
  unfold run, summary_expenses, bind, load_expenses, datetime_now.
  destruct (Py.truthy_int m); [|done].
  unfold print. by rewrite show_budget_warning_run.
Qed.

Lemma set_budget_store args w : store (run (set_budget args) w) = store w.
Proof.
  unfold run, set_budget, bind, load_budget, save_budget.
  by destruct (Py.le0 (bud_amount args)).
Qed.

Lemma main_keeps_ids_distinct c w :
  NoDup (map exp_id (store w)) -> NoDup (map exp_id (store (run (main c) w))).
Proof.
  intros Hnd. destruct c as [args|args|n|category|m|args|args]; cbn [main].
  - destruct (Py.le0 (add_amount args)) eqn:Hle.
    + unfold run. by rewrite add_expense_rejected.
    + destruct (add_expense_accepted args w Hle) as [-> _].
      rewrite map_app. cbn. apply NoDup_app. split; [done|]. split.
      * intros x Hx Hx'. apply list_elem_of_singleton in Hx'. subst x.
        apply list_elem_of_fmap in Hx as (e & He & Hin).
        pose proof (generate_new_id_gt _ _ Hin). lia.
      * apply NoDup_singleton.
  - by rewrite update_expense_ids.
  - rewrite delete_expense_store.
    eapply sublist_NoDup; [exact Hnd|].
    apply (fmap_sublist exp_id), sublist_filter.
  - unfold run. rewrite list_expenses_run.
    by destruct (by_category category (store w)).
  - destruct m as [m|]; [destruct (month_choice m)|]; try done;
      by rewrite summary_expenses_store.
  - destruct (month_choice (bud_month args)); [|done]. by rewrite set_budget_store.
  - unfold run. rewrite export_csv_run.
    by destruct (by_category (exp_filter args) (store w)).
Qed.

Lemma session_keeps_ids_distinct cs w :
  NoDup (map exp_id (store w)) -> NoDup (map exp_id (store (run (session cs) w))).
Proof.
  revert w. induction cs as [|[d c] cs IH]; intros w Hnd; [done|].
  unfold run. cbn [session]. unfold bind at 1. cbn [set_clock].
  unfold bind at 1.
  destruct (main c _) as [[] w1] eqn:Hmain.
  apply IH. change w1 with (snd (tt, w1)). rewrite <- Hmain.
  by apply (main_keeps_ids_distinct c).
Qed.

(** ** Identifier assignment *)

(** C3, as stated, fails in its last part: after two adds the store holds
    identifiers 1 and 2; deleting 2 and adding again issues 2 a second
    time. *)
Lemma deleted_maximum_is_reissued :
  let w2 := run (session two_adds) (fresh today) in
  let w3 := run (main (Delete 2)) w2 in
  let w4 := run (main (Add (AddArgs "Pen" 1.25%float None))) w3 in
  map exp_id (store w2) = [1; 2] /\
  map exp_id (store w3) = [1] /\
  map exp_id (store w4) = [1; 2].
Proof. vm_compute. repeat split; reflexivity. Qed.

(** C3 (amended): in every store state, reached by any sequence of
    commands from any start, an accepted Add appends one record whose
    identifier is the largest existing identifier plus one, or 1 on an
    empty store; that identifier is carried by no record of the store and
    is strictly greater than the identifier of every record in it, so
    identifiers stay pairwise distinct along every session that starts
    from distinct ones; and an identifier, freed by a delete or not, is
    not issued as long as a record with that identifier or a larger one
    is in the store. *)
Theorem add_assigns_next_identifier (w0 : world) (cs : list (date * command))
    (args : add_args) :
  Py.le0 (add_amount args) = false ->
  let w := run (session cs) w0 in
  let w' := run (add_expense args) w in
  exists new,
    store w' = store w ++ [new] /\
    exp_id new = generate_new_id (store w) /\
    (store w = [] -> exp_id new = 1) /\
    (forall m, max_id m (store w) -> exp_id new = m + 1) /\
    (forall e, e ∈ store w -> exp_id e < exp_id new) /\
    (forall e, e ∈ store w -> exp_id e <> exp_id new) /\
    (NoDup (map exp_id (store w0)) ->
       NoDup (map exp_id (store w)) /\ NoDup (map exp_id (store w'))) /\
    (forall d e, e ∈ store w -> d <= exp_id e -> exp_id new <> d).
Proof.
  intros Hle w w'. exists (new_expense args w).
  destruct (add_expense_accepted args w Hle) as [Hst _].
  split; [exact Hst|]. split; [reflexivity|]. cbn [new_expense exp_id].
  split; [by intros ->|]. split; [intros m; apply generate_new_id_max|].
  split; [intros e; apply generate_new_id_gt|].
  split; [intros e He; pose proof (generate_new_id_gt _ _ He); lia|]. split.
  - intros Hnd. pose proof (session_keeps_ids_distinct cs w0 Hnd) as Hw.
    split; [exact Hw|].
    pose proof (main_keeps_ids_distinct (Add args) w Hw) as Hw'. exact Hw'.
  - intros d e Hin Hd. pose proof (generate_new_id_gt _ _ Hin). lia.
Qed.

Lemma add_assigns_next_identifier_witness :
  let w := run (session (two_adds ++ [(today, Delete 1)])) (fresh today) in
  exists new,
    store (run (add_expense (AddArgs "Pen" 1.25%float None)) w) = store w ++ [new] /\
    exp_id new = 3.
Proof.
  destruct (add_assigns_next_identifier (fresh today) (two_adds ++ [(today, Delete 1)])
              (AddArgs "Pen" 1.25%float None)) as (new & Hst & Hid & _).
  - vm_compute. reflexivity.
  - exists new. split; [exact Hst|]. rewrite Hid. vm_compute. reflexivity.
Defined.

(** ** Summary *)

(** C4: Summary for a month [m] in 1..12 totals the amounts of exactly
    the records dated in month [m] of the current year, in store order;
    Summary without a month totals the amounts of all records.  No
    category plays a part. *)
Theorem summary_totals (w : world) (m : Z) :
  1 <= m <= 12 ->
  let selected := filter (in_month m (year (clock w))) (store w) in
  (forall e, e ∈ selected <->
     e ∈ store w /\ month (exp_date e) = m /\ year (exp_date e) = year (clock w)) /\
  summary_total (Some m) (clock w) (store w) = Py.sum (map exp_amount selected) /\
  summary_total None (clock w) (store w) = Py.sum (map exp_amount (store w)) /\
  (exists warning,
     run (main (Summary (Some m))) w =
       emit_all (("Total expenses for " +:+ Py.month_name m +:+ ": $"
                    +:+ Py.format_2f (Py.sum (map exp_amount selected))) :: warning) w) /\
  run (main (Summary None)) w =
    emit ("Total expenses: $" +:+ Py.format_2f (Py.sum (map exp_amount (store w)))) w.
Proof.
  intros Hm selected.
  assert (Ht : Py.truthy_int (Some m) = true).
  { cbn. destruct (Z.eqb_spec m 0); [lia|done]. }
  assert (Hc : month_choice m = true).
  { unfold month_choice. apply andb_true_iff. split; apply Z.leb_le; lia. }
  split; [|split; [|split; [|split]]].
  - intros e. unfold selected. rewrite list_elem_of_filter. unfold in_month. tauto.
  - unfold summary_total, summary_filtered. by rewrite Ht.
  - reflexivity.
  - exists (threshold_warning (ceiling_of w m)
              (Py.sum (map exp_amount selected)) exceed_text).
    unfold run. cbn [main]. rewrite Hc.
    unfold summary_expenses, bind, load_expenses, datetime_now. fold (store w).
    rewrite Ht. unfold print. rewrite show_budget_warning_run.
    unfold summary_total, summary_filtered. rewrite Ht. cbn.
    unfold emit_all, ceiling_of. cbn. by rewrite <- app_assoc.
  - reflexivity.
Qed.

Lemma summary_totals_witness :
  summary_total (Some 6) (clock june_world) (store june_world) = 120%float /\
  summary_total None (clock june_world) (store june_world) = 620%float.
Proof.
  destruct (summary_totals june_world 6) as (_ & H6 & Hall & _); [lia|].
  split; [rewrite H6|rewrite Hall]; vm_compute; reflexivity.
Defined.

(** ** Rejected amounts and missing identifiers *)

Lemma emit_inj line1 line2 w : emit line1 w = emit line2 w -> line1 = line2.
Proof.
  intros H. apply (f_equal stdout) in H. cbn in H.
  apply app_inv_head in H. congruence.
Qed.

Lemma invalid_amount_update_text : reported InvalidAmount "Error: Amount must be positive.".
Proof. cbn. apply list_elem_of_further, list_elem_of_here. Qed.

Lemma not_found_not_invalid n : ~ reported InvalidAmount (not_found_text n).
Proof.
  unfold reported, not_found_text. rewrite !append_cons. intros H.
  repeat (apply elem_of_cons in H as [H|H]; [discriminate H|]). inversion H.
Qed.

Lemma update_expense_missing args w :
  (forall e, e ∈ store w -> exp_id e <> upd_id args) ->
  update_expense args w = (tt, emit (not_found_text (upd_id args)) w).
Proof.
  intros Hmiss.
  destruct (update_expense_cases args w) as [[_ Hrun]|(pre & x & post & Hst & _ & Hx & _)];
    [done|].
  destruct (Hmiss x); [|done]. rewrite Hst. apply elem_of_app. right. apply list_elem_of_here.
Qed.

Lemma update_expense_rejected args w :
  amount_rejected args = true ->
  (exists e, e ∈ store w /\ exp_id e = upd_id args) ->
  update_expense args w = (tt, emit "Error: Amount must be positive." w).
Proof.
  intros Hrej (e & Hin & He).
  destruct (update_expense_cases args w) as [[Hall _]|(pre & x & post & _ & _ & _ & Hrun)].
  - rewrite Forall_forall in Hall. by destruct (Hall e Hin).
  - by rewrite Hrej in Hrun.
Qed.

Lemma delete_expense_missing n w :
  (forall e, e ∈ store w -> exp_id e <> n) ->
  delete_expense n w = (tt, emit (not_found_text n) w).
Proof.
  intros Hmiss. unfold delete_expense, bind, load_expenses. fold (store w).
  assert (Hf : filter (fun e => exp_id e <> n) (store w) = store w).
  { induction (store w) as [|x l IH]; [done|].
    rewrite filter_cons_True by (apply Hmiss, list_elem_of_here).
    f_equal. apply IH. intros e He. apply Hmiss. by apply list_elem_of_further. }
  rewrite Hf. by destruct (decide (length (store w) <> length (store w))).
Qed.

(** C5, as stated, fails for Update: with an amount of -3 and an
    identifier that no record carries, the call reports NotFound, not
    InvalidAmount. *)
Lemma update_missing_id_not_invalid_amount :
  let args := UpdateArgs 7 None (Some (-3)%float) None in
  Py.le0 (-3)%float = true /\
  update_expense args rent_world = (tt, emit "Error: Expense with ID 7 not found." rent_world) /\
  ~ fails_with InvalidAmount (update_expense args) rent_world.
Proof.
  split; [vm_compute; reflexivity|].
  assert (Hrun : update_expense (UpdateArgs 7 None (Some (-3)%float) None) rent_world
                 = (tt, emit "Error: Expense with ID 7 not found." rent_world))
    by (vm_compute; reflexivity).
  split; [exact Hrun|].
  intros (line & Hrep & Hline). rewrite Hrun in Hline.
  apply (f_equal snd) in Hline. cbn [snd] in Hline.
  apply emit_inj in Hline. subst line.
  by apply (not_found_not_invalid 7).
Qed.

(** C5 (amended): for an amount that is not strictly positive, Add and
    SetBudget fail with InvalidAmount, and so does Update when the amount
    is given and a record with the identifier exists; Update on an
    identifier that no record carries reports NotFound instead.  In every
    case the call only prints its message: both JSON documents are left
    unchanged. *)
Theorem nonpositive_amount_rejected (w : world) (a : float) :
  Py.le0 a = true ->
  (forall description category,
     fails_with InvalidAmount (add_expense (AddArgs description a category)) w) /\
  (forall n description category,
     (exists e, e ∈ store w /\ exp_id e = n) ->
     fails_with InvalidAmount (update_expense (UpdateArgs n description (Some a) category)) w) /\
  (forall n description category,
     (forall e, e ∈ store w -> exp_id e <> n) ->
     fails_with NotFound (update_expense (UpdateArgs n description (Some a) category)) w) /\
  (forall m, fails_with InvalidAmount (set_budget (BudgetArgs m a)) w).
Proof.
  intros Hle. repeat split.
  - intros description category. eexists. split; [|by apply add_expense_rejected].
    cbn. apply list_elem_of_here.
  - intros n description category Hex. eexists.
    split; [exact invalid_amount_update_text|]. by apply update_expense_rejected.
  - intros n description category Hmiss. eexists.
    split; [|by apply update_expense_missing]. by exists n.
  - intros m. eexists. split; [|unfold set_budget; cbn [bud_amount]; by rewrite Hle].
    cbn. do 2 apply list_elem_of_further. apply list_elem_of_here.
Qed.

Lemma nonpositive_amount_rejected_witness :
  fails_with InvalidAmount (add_expense (AddArgs "Tea" 0%float None)) rent_world /\
  fails_with InvalidAmount
    (update_expense (UpdateArgs 1 (Some "Flat"%string) (Some 0%float) None)) rent_world /\
  fails_with NotFound (update_expense (UpdateArgs 9 None (Some 0%float) None)) rent_world /\
  fails_with InvalidAmount (set_budget (BudgetArgs 6 0%float)) rent_world.
Proof.
  destruct (nonpositive_amount_rejected rent_world 0%float) as (HA & HU & HN & HB).
  - vm_compute. reflexivity.
  - split; [apply HA|]. split; [|split; [|apply HB]].
    + apply HU. exists (Expense 1 (Date 2024 6 1) "Rent" 70%float "home").
      split; [apply list_elem_of_here|reflexivity].
    + apply HN. intros e He. none_of_listed He.
Defined.

(** C6: when no record carries the identifier, Update and Delete each
    report NotFound and do nothing but print that line: the expense
    document is not written, so it keeps its content, or stays absent. *)
Theorem missing_id_reports_not_found (w : world) (n : Z) :
  (forall e, e ∈ store w -> exp_id e <> n) ->
  (forall description amount category,
     let args := UpdateArgs n description amount category in
     update_expense args w = (tt, emit (not_found_text n) w) /\
     fails_with NotFound (update_expense args) w /\
     expenses_json (run (update_expense args) w) = expenses_json w) /\
  delete_expense n w = (tt, emit (not_found_text n) w) /\
  fails_with NotFound (delete_expense n) w /\
  expenses_json (run (delete_expense n) w) = expenses_json w.
Proof.
  intros Hmiss. split.
  - intros description amount category args.
    assert (Hrun : update_expense args w = (tt, emit (not_found_text n) w))
      by (by apply update_expense_missing).
    split; [exact Hrun|]. split.
    + exists (not_found_text n). split; [by exists n|exact Hrun].
    + unfold run. by rewrite Hrun.
  - pose proof (delete_expense_missing n w Hmiss) as Hrun.
    split; [exact Hrun|]. split.
    + exists (not_found_text n). split; [by exists n|exact Hrun].
    + unfold run. by rewrite Hrun.
Qed.

Lemma missing_id_reports_not_found_witness :
  update_expense (UpdateArgs 5 (Some "Flat"%string) (Some 10%float) None) rent_world
    = (tt, emit "Error: Expense with ID 5 not found." rent_world) /\
  delete_expense 5 rent_world = (tt, emit "Error: Expense with ID 5 not found." rent_world).
Proof.
  destruct (missing_id_reports_not_found rent_world 5) as (HU & HD & _).
  - intros e He. none_of_listed He.
  - split; [|exact HD]. apply (HU (Some "Flat"%string) (Some 10%float) None).
Defined.

(** ** Listing and export *)

Lemma by_category_nonempty (c : string) (expenses : list expense_record) :
  c <> "" ->
  by_category (Some c) expenses = filter (fun e => exp_category e = c) expenses.
Proof.
  intros Hc. unfold by_category. by rewrite (truthy_nonempty c Hc).
Qed.

Lemma by_category_sublist category (expenses : list expense_record) :
  by_category category expenses `sublist_of` expenses.
Proof.
  unfold by_category. destruct (Py.truthy category); [apply sublist_filter|done].
Qed.

(** C7: with a non-empty filter [c], List shows exactly the records whose
    category is the string [c] (equality of strings, so letter case
    counts, and a record without category never matches), in store
    order; without a filter (or with the empty string as filter) it
    shows all records in store order; an empty selection is reported by
    the line "No expenses found." instead of a table. *)
Theorem list_shows_matching_records (w : world) (c : string) :
  c <> "" ->
  let shown := filter (fun e => exp_category e = c) (store w) in
  let table (rows : list expense_record) :=
    emit_all (list_header :: Py.repeat_char "-" 50 :: map list_row rows) w in
  shown `sublist_of` store w /\
  (forall e, e ∈ shown <-> e ∈ store w /\ exp_category e = c) /\
  (forall e, exp_category e = "" -> e ∉ shown) /\
  run (list_expenses (Some c)) w
    = match shown with [] => emit "No expenses found." w | _ => table shown end /\
  run (list_expenses None) w
    = match store w with [] => emit "No expenses found." w | _ => table (store w) end /\
  list_expenses (Some ""%string) w = list_expenses None w /\
  reported EmptyResult "No expenses found." /\
  list_header <> "No expenses found.".
Proof.
  intros Hc shown table. split; [apply sublist_filter|]. split; [|split].
  - intros e. unfold shown. rewrite list_elem_of_filter. tauto.
  - intros e He Hin. apply list_elem_of_filter in Hin as [Hin _]. congruence.
  - split; [|split; [|split; [|split]]].
    + unfold run. rewrite list_expenses_run, (by_category_nonempty c _ Hc).
      fold shown. by destruct shown.
    + unfold run. rewrite list_expenses_run. unfold by_category. cbn [Py.truthy].
      by destruct (store w).
    + by rewrite !list_expenses_run.
    + cbn. apply list_elem_of_here.
    + discriminate.
Qed.

Lemma list_shows_matching_records_witness :
  stdout (run (list_expenses (Some "food"%string)) mixed_world)
    = ["ID  Date        Description      Amount   Category"%string;
       "--------------------------------------------------"%string;
       "2   2024-06-09  Lunch          $12.50   food"%string;
       "5   2024-06-09  Bread          $2.25    food"%string].
Proof.
  destruct (list_shows_matching_records mixed_world "food") as (_ & _ & _ & Hrun & _).
  - discriminate.
  - rewrite Hrun. vm_compute. reflexivity.
Defined.

Lemma by_category_cases category (expenses : list expense_record) :
  by_category category expenses =
    match category with
    | Some c =>
        if decide (c = "") then expenses
        else filter (fun e => exp_category e = c) expenses
    | None => expenses
    end.
Proof.
  destruct category as [c|]; [|done]. destruct (decide (c = "")) as [->|Hc]; [done|].
  by apply by_category_nonempty.
Qed.

(** C8: ExportCSV selects the whole store when no category (or the empty
    string) is given, and otherwise the records whose category is the
    given string, in store order.  When the selection is empty it only
    prints "No expenses to export.": no file is created and no existing
    file is touched.  Otherwise the file of the given name receives the
    header row id, date, description, amount, category followed by one
    row per selected record in store order, holding the record's
    identifier, date text, description, amount and category. *)
Theorem export_csv_writes_selection (w : world) (args : export_args) :
  let selected :=
    match exp_filter args with
    | Some c =>
        if decide (c = "") then store w
        else filter (fun e => exp_category e = c) (store w)
    | None => store w
    end in
  let row (e : expense_record) :=
    [CellInt (exp_id e); CellStr (strftime_ymd (exp_date e)); CellStr (exp_description e);
     CellFloat (exp_amount e); CellStr (exp_category e)] in
  let w' := run (export_csv args) w in
  selected `sublist_of` store w /\
  match selected with
  | [] =>
      w' = emit "No expenses to export." w /\
      reported EmptyResult "No expenses to export." /\
      csv_files w' = csv_files w
  | _ =>
      csv_files w' !! exp_filename args
        = Some ([CellStr "id"; CellStr "date"; CellStr "description"; CellStr "amount";
                 CellStr "category"] :: map row selected) /\
      stdout w' = stdout w ++ ["Exported expenses to " +:+ exp_filename args]
  end.
Proof.
  intros selected row w'.
  assert (Hsel : by_category (exp_filter args) (store w) = selected)
    by apply by_category_cases.
  split; [rewrite <- Hsel; apply by_category_sublist|].
  unfold w', run. rewrite export_csv_run, Hsel.
  destruct selected as [|e rest].
  - repeat split. cbn. apply list_elem_of_further, list_elem_of_here.
  - cbn [snd csv_files stdout]. split; [apply lookup_insert_eq|done].
Qed.

Lemma export_csv_writes_selection_witness :
  csv_files (run (export_csv (ExportArgs "food.csv" (Some "food"%string))) mixed_world)
      !! "food.csv"%string
    = Some [[CellStr "id"; CellStr "date"; CellStr "description"; CellStr "amount";
             CellStr "category"];
            [CellInt 2; CellStr "2024-06-09"; CellStr "Lunch"; CellFloat 12.5%float;
             CellStr "food"];
            [CellInt 5; CellStr "2024-06-09"; CellStr "Bread"; CellFloat 2.25%float;
             CellStr "food"]] /\
  csv_files (run (export_csv (ExportArgs "all.csv" None)) rent_world) !! "all.csv"%string
    = Some [[CellStr "id"; CellStr "date"; CellStr "description"; CellStr "amount";
             CellStr "category"];
            [CellInt 1; CellStr "2024-06-01"; CellStr "Rent"; CellFloat 70%float;
             CellStr "home"];
            [CellInt 2; CellStr "2024-06-09"; CellStr "Food"; CellFloat 50%float;
             CellStr "food"]] /\
  run (export_csv (ExportArgs "none.csv" (Some "travel"%string))) mixed_world
    = emit "No expenses to export." mixed_world.
Proof.
  pose proof (export_csv_writes_selection mixed_world
                (ExportArgs "food.csv" (Some "food"%string))) as (_ & Hfood & _).
  pose proof (export_csv_writes_selection rent_world (ExportArgs "all.csv" None))
    as (_ & Hall & _).
  pose proof (export_csv_writes_selection mixed_world
                (ExportArgs "none.csv" (Some "travel"%string))) as (_ & Hnone & _).
  split; [|split].
  - etrans; [exact Hfood|]. vm_compute. reflexivity.
  - etrans; [exact Hall|]. vm_compute. reflexivity.
  - exact Hnone.
Defined.

(** ** Update: what changes and what does not *)

(** C9: a successful Update rewrites one record, the first one carrying
    the identifier: every record before and after it is kept as it was,
    in the same order, and the rewritten record keeps its identifier and
    its date. *)
Theorem update_changes_one_record (w : world) (args : update_args) :
  stdout (run (update_expense args) w) = stdout w ++ ["Expense updated successfully"] ->
  exists pre e post,
    store w = pre ++ e :: post /\
    store (run (update_expense args) w) = pre ++ updated args e :: post /\
    exp_id e = upd_id args /\
    (forall x, x ∈ pre -> exp_id x <> upd_id args) /\
    exp_id (updated args e) = exp_id e /\
    exp_date (updated args e) = exp_date e.
Proof.
  unfold run. intros Hout.
  destruct (update_expense_cases args w) as [[_ Hrun]|(pre & e & post & Hst & Hpre & He & Hrun)].
  - rewrite Hrun in Hout. cbn in Hout. apply app_inv_head in Hout.
    unfold not_found_text in Hout. rewrite !append_cons in Hout. discriminate Hout.
  - rewrite Hrun in *. destruct (amount_rejected args).
    + cbn in Hout. apply app_inv_head in Hout. discriminate Hout.
    + exists pre, e, post. repeat split; try done.
      * by apply Forall_forall.
      * apply updated_id.
      * apply updated_date.
Qed.

Lemma update_changes_one_record_witness :
  let args := UpdateArgs 2 (Some "Dinner"%string) (Some 15%float) None in
  exists pre e post,
    store mixed_world = pre ++ e :: post /\
    store (run (update_expense args) mixed_world) = pre ++ updated args e :: post /\
    exp_id e = 2 /\
    (forall x, x ∈ pre -> exp_id x <> 2) /\
    exp_id (updated args e) = exp_id e /\
    exp_date (updated args e) = exp_date e.
Proof.
  apply (update_changes_one_record mixed_world
           (UpdateArgs 2 (Some "Dinner"%string) (Some 15%float) None)).
  vm_compute. reflexivity.
Defined.

Lemma update_expense_match args w pre e post :
  store w = pre ++ e :: post ->
  Forall (fun x => exp_id x <> upd_id args) pre ->
  exp_id e = upd_id args ->
  update_expense args w =
    (tt, if amount_rejected args
         then emit "Error: Amount must be positive." w
         else emit "Expense updated successfully"
                (saved (pre ++ updated args e :: post) w)).
Proof.
  intros Hst Hpre He. unfold update_expense, bind, load_expenses. fold (store w).
  rewrite Hst, update_loop_match by done. by destruct (amount_rejected args).
Qed.

Lemma updated_description args e :
  exp_description (updated args e) =
    if Py.truthy (upd_description args) then default "" (upd_description args)
    else exp_description e.
Proof.
  unfold updated. destruct (Py.truthy (upd_category args)), (upd_amount args),
    (Py.truthy (upd_description args)); reflexivity.
Qed.

Lemma updated_category args e :
  exp_category (updated args e) =
    if Py.truthy (upd_category args) then default "" (upd_category args)
    else exp_category e.
Proof.
  unfold updated. destruct (Py.truthy (upd_category args)), (upd_amount args),
    (Py.truthy (upd_description args)); reflexivity.
Qed.

Lemma truthy_default o : Py.truthy o = true -> default "" o <> "".
Proof.
  destruct o as [s|]; [|discriminate]. intros H. cbn. by apply truthy_Some.
Qed.

Lemma not_cleared_updated args e : not_cleared e (updated args e).
Proof.
  split.
  - rewrite updated_description.
    destruct (Py.truthy (upd_description args)) eqn:Ht; [|done].
    intros H. by destruct (truthy_default _ Ht).
  - rewrite updated_category.
    destruct (Py.truthy (upd_category args)) eqn:Ht; [|done].
    intros H. by destruct (truthy_default _ Ht).
Qed.

Lemma not_cleared_same (l : list expense_record) : Forall2 not_cleared l l.
Proof. induction l; constructor; [by split|done]. Qed.

(** C10: an empty string given to Update as description or as category
    acts like an absent argument: the call behaves exactly as without it,
    the matching record keeps that field, and no call of Update ever
    turns a non-empty description or category into the empty string. *)
Theorem update_ignores_empty_strings (w : world) (n : Z)
    (description category : option string) (amount : option float) :
  update_expense (UpdateArgs n (Some ""%string) amount category) w
    = update_expense (UpdateArgs n None amount category) w /\
  update_expense (UpdateArgs n description amount (Some ""%string)) w
    = update_expense (UpdateArgs n description amount None) w /\
  (forall pre e post,
     store w = pre ++ e :: post ->
     Forall (fun x => exp_id x <> n) pre ->
     exp_id e = n ->
     exists e',
       store (run (update_expense (UpdateArgs n (Some ""%string) amount (Some ""%string))) w)
         = pre ++ e' :: post /\
       exp_description e' = exp_description e /\
       exp_category e' = exp_category e) /\
  Forall2 not_cleared (store w)
    (store (run (update_expense (UpdateArgs n description amount category)) w)).
Proof.
  split; [|split; [|split]].
  - destruct (first_match n (store w)) as [Hall|(pre & e & post & Hst & Hpre & He)].
    + rewrite Forall_forall in Hall. by rewrite !update_expense_missing.
    + by rewrite !(update_expense_match _ w pre e post).
  - destruct (first_match n (store w)) as [Hall|(pre & e & post & Hst & Hpre & He)].
    + rewrite Forall_forall in Hall. by rewrite !update_expense_missing.
    + by rewrite !(update_expense_match _ w pre e post).
  - intros pre e post Hst Hpre He. unfold run.
    rewrite (update_expense_match _ w pre e post) by done.
    destruct (amount_rejected _).
    + exists e. cbn [snd]. by rewrite store_emit.
    + eexists. split; [reflexivity|]. by rewrite updated_description, updated_category.
  - unfold run. set (args := UpdateArgs n description amount category).
    destruct (update_expense_cases args w) as [[_ ->]|(pre & e & post & Hst & _ & _ & ->)].
    + apply not_cleared_same.
    + destruct (amount_rejected args); [apply not_cleared_same|].
      cbn [snd]. rewrite Hst. change (store (emit _ (saved ?l _))) with l.
      apply Forall2_app; [apply not_cleared_same|].
      constructor; [apply not_cleared_updated|apply not_cleared_same].
Qed.

(** * Further properties of the commands *)

(** ** Delete *)

Lemma delete_expense_found n w :
  (exists e, e ∈ store w /\ exp_id e = n) ->
  delete_expense n w =
    (tt, emit "Expense deleted successfully"
           (saved (filter (fun e => exp_id e <> n) (store w)) w)).
Proof.
  intros (e & Hin & He). unfold delete_expense, bind, load_expenses. fold (store w).
  assert (Hlt : (length (filter (fun x => exp_id x <> n) (store w)) < length (store w))%nat).
  { apply (length_filter_lt _ _ e); [done|]. intros Hne. by apply Hne. }
  destruct (decide (length (filter (fun x => exp_id x <> n) (store w)) <> length (store w)));
    [done|lia].
Qed.

(** X1: Delete of an identifier carried by some record saves the store
    without every record of that identifier, keeps all other records in
    their order, leaves the budget document alone and prints the success
    line. *)
Theorem delete_removes_matching_records (w : world) (n : Z) :
  (exists e, e ∈ store w /\ exp_id e = n) ->
  let w' := run (delete_expense n) w in
  delete_expense n w =
    (tt, emit "Expense deleted successfully"
           (saved (filter (fun e => exp_id e <> n) (store w)) w)) /\
  (forall e, e ∈ store w' <-> e ∈ store w /\ exp_id e <> n) /\
  store w' `sublist_of` store w /\
  budget_json w' = budget_json w /\
  stdout w' = stdout w ++ ["Expense deleted successfully"].
Proof.
  intros Hex w'. pose proof (delete_expense_found n w Hex) as Hrun.
  split; [exact Hrun|]. unfold w', run. rewrite Hrun. cbn [snd].
  change (store (emit _ (saved ?l _))) with l.
  split; [|split; [apply sublist_filter|done]].
  intros e. rewrite list_elem_of_filter. tauto.
Qed.

Lemma delete_removes_matching_records_witness :
  store (run (delete_expense 2) mixed_world)
    = [Expense 1 (Date 2024 6 1) "Rent" 70%float "home";
       Expense 3 (Date 2024 6 9) "Stamp" 1.5%float "";
       Expense 4 (Date 2024 6 9) "Tea" 3%float "Food";
       Expense 5 (Date 2024 6 9) "Bread" 2.25%float "food"].
Proof.
  destruct (delete_removes_matching_records mixed_world 2) as (Hrun & _).
  - exists (Expense 2 (Date 2024 6 9) "Lunch" 12.5%float "food").
    split; [apply list_elem_of_further, list_elem_of_here|reflexivity].
  - unfold run. rewrite Hrun. vm_compute. reflexivity.
Defined.

(** X2: a second Delete of the same identifier always reports NotFound
    and writes nothing, whatever the first one did. *)
Theorem delete_twice_not_found (w : world) (n : Z) :
  delete_expense n (run (delete_expense n) w)
    = (tt, emit (not_found_text n) (run (delete_expense n) w)).
Proof.
  apply delete_expense_missing. intros e He.
  rewrite delete_expense_store in He. by apply list_elem_of_filter in He as [Hne _].
Qed.

Lemma filter_other_ids (n : Z) (l : list expense_record) :
  (forall e, e ∈ l -> exp_id e <> n) -> filter (fun e => exp_id e <> n) l = l.
Proof.
  induction l as [|x l IH]; intros Hall; [done|].
  rewrite filter_cons_True by (apply Hall, list_elem_of_here).
  f_equal. apply IH. intros e He. by apply Hall, list_elem_of_further.
Qed.

Lemma filter_one_id (l : list expense_record) (e : expense_record) :
  NoDup (map exp_id l) -> e ∈ l ->
  (length (filter (fun x => exp_id x <> exp_id e) l) + 1 = length l)%nat.
Proof.
  induction l as [|x l IH]; intros Hnd Hin; [inversion Hin|].
  cbn [map] in Hnd. apply NoDup_cons in Hnd as [Hx Hnd].
  apply elem_of_cons in Hin as [->|Hin].
  - rewrite filter_cons_False by (intros H; by apply H).
    rewrite filter_other_ids; [cbn; lia|].
    intros y Hy Heq. apply Hx. rewrite <- Heq. apply list_elem_of_fmap. eauto.
  - assert (exp_id x <> exp_id e).
    { intros Heq. apply Hx. rewrite Heq. apply list_elem_of_fmap. eauto. }
    rewrite filter_cons_True by done. cbn. rewrite <- (IH Hnd Hin). lia.
Qed.

(** X3: when the identifiers of the store are pairwise distinct, a Delete
    that finds its identifier removes exactly one record. *)
Theorem delete_removes_exactly_one (w : world) (n : Z) :
  NoDup (map exp_id (store w)) ->
  (exists e, e ∈ store w /\ exp_id e = n) ->
  (length (store (run (delete_expense n) w)) + 1 = length (store w))%nat.
Proof.
  intros Hnd (e & Hin & <-). rewrite delete_expense_store. by apply filter_one_id.
Qed.

Lemma delete_removes_exactly_one_witness :
  (length (store (run (delete_expense 4) mixed_world)) + 1 = length (store mixed_world))%nat.
Proof.
  apply (delete_removes_exactly_one mixed_world 4).
  - compute_done.
  - exists (Expense 4 (Date 2024 6 9) "Tea" 3%float "Food").
    split; [do 3 apply list_elem_of_further; apply list_elem_of_here|reflexivity].
Defined.

(** ** Add *)

Lemma new_expense_category args w :
  exp_category (new_expense args w) = default "" (add_category args).
Proof.
  unfold new_expense. cbn [exp_category].
  destruct (add_category args) as [c|]; [|done]. cbn.
  by destruct (String.eqb_spec c "") as [->|].
Qed.

Lemma add_expense_run args w :
  Py.le0 (add_amount args) = false ->
  run (add_expense args) w =
    emit ("Expense added successfully (ID: " +:+ Py.str (generate_new_id (store w)) +:+ ")")
      (emit_all (threshold_warning (ceiling_of w (month (clock w)))
                   (month_total (clock w) (store w ++ [new_expense args w]))
                   (fun c => exceeded_text c (clock w)))
         (saved (store w ++ [new_expense args w]) w)).
Proof.
  intros Hle. unfold run, add_expense, bind, load_expenses, datetime_now, save_expenses.
  rewrite Hle. cbn beta iota. rewrite warn_budget_if_needed_run. reflexivity.
Qed.

(** X4: an accepted Add saves the store with one record appended: the
    next identifier, the current date, the description as given, the
    amount rounded to two places, and the category as given (empty when
    absent).  It leaves the budget document alone and prints, after at
    most one budget warning, the success line with the new identifier. *)
Theorem add_appends_record (w : world) (args : add_args) :
  Py.le0 (add_amount args) = false ->
  let w' := run (add_expense args) w in
  let new := Expense (generate_new_id (store w)) (clock w) (add_description args)
               (Py.round2 (add_amount args)) (default "" (add_category args)) in
  expenses_json w' = Some (store w ++ [new]) /\
  budget_json w' = budget_json w /\
  exists warning,
    (length warning <= 1)%nat /\
    stdout w' = stdout w ++ warning
                  ++ ["Expense added successfully (ID: " +:+ Py.str (exp_id new) +:+ ")"].
Proof.
  intros Hle w' new.
  assert (Hnew : new_expense args w = new).
  { unfold new. rewrite <- (new_expense_category args w). reflexivity. }
  unfold w'. rewrite (add_expense_run args w Hle), Hnew. cbn.
  split; [done|]. split; [done|].
  eexists. split; [|by rewrite <- app_assoc].
  unfold threshold_warning. destruct (ceiling_of _ _) as [c|]; [|cbn; lia].
  destruct (Py.gt _ c); cbn; lia.
Qed.

Lemma add_appends_record_witness :
  expenses_json (run (add_expense (AddArgs "Pen" 1.25%float None)) rent_world)
    = Some (store rent_world ++ [Expense 3 (Date 2024 6 9) "Pen" 1.25%float ""]).
Proof.
  destruct (add_appends_record rent_world (AddArgs "Pen" 1.25%float None)) as (Hst & _).
  - vm_compute. reflexivity.
  - rewrite Hst. vm_compute. reflexivity.
Defined.

(** X5: the warning of an accepted Add and the warning of a Summary of
    the current month run right after it go together: the total both
    compare with the ceiling is the same, so either both warn or neither
    does. *)
Theorem add_warns_as_summary_would (w : world) (args : add_args) :
  Py.le0 (add_amount args) = false ->
  1 <= month (clock w) <= 12 ->
  let w' := run (add_expense args) w in
  let m := month (clock w) in
  exists total warning_add warning_summary,
    total = summary_total (Some m) (clock w') (store w') /\
    stdout w' = stdout w ++ warning_add
                  ++ ["Expense added successfully (ID: "
                        +:+ Py.str (generate_new_id (store w)) +:+ ")"] /\
    run (main (Summary (Some m))) w' =
      emit_all (("Total expenses for " +:+ Py.month_name m +:+ ": $"
                   +:+ Py.format_2f total) :: warning_summary) w' /\
    (warning_add = [] <-> warning_summary = []).
Proof.
  intros Hle Hm w' m.
  assert (Ht : Py.truthy_int (Some m) = true).
  { cbn. destruct (Z.eqb_spec m 0); [unfold m in *; lia|done]. }
  assert (Hc : month_choice m = true).
  { unfold month_choice, m. apply andb_true_iff. split; apply Z.leb_le; lia. }
  set (total := month_total (clock w) (store w ++ [new_expense args w])).
  exists total,
    (threshold_warning (ceiling_of w m) total (fun c => exceeded_text c (clock w))),
    (threshold_warning (ceiling_of w m) total exceed_text).
  assert (Hw' : w' = emit ("Expense added successfully (ID: "
                             +:+ Py.str (generate_new_id (store w)) +:+ ")")
                       (emit_all (threshold_warning (ceiling_of w m) total
                                    (fun c => exceeded_text c (clock w)))
                          (saved (store w ++ [new_expense args w]) w)))
    by (unfold w'; by rewrite (add_expense_run args w Hle)).
  assert (Hstore : store w' = store w ++ [new_expense args w]) by (by rewrite Hw').
  assert (Hclock : clock w' = clock w) by (by rewrite Hw').
  assert (Hbud : ceiling_of w' m = ceiling_of w m) by (by rewrite Hw').
  assert (Htot : summary_total (Some m) (clock w') (store w') = total).
  { unfold summary_total, summary_filtered. by rewrite Ht, Hstore, Hclock. }
  split; [done|]. split; [|split].
  - rewrite Hw'. cbn. by rewrite <- app_assoc.
  - unfold run. cbn [main]. rewrite Hc.
    unfold summary_expenses, bind, load_expenses, datetime_now. fold (store w').
    rewrite Ht, Htot. unfold print. rewrite show_budget_warning_run.
    cbn [snd default]. unfold emit_all, ceiling_of in *. cbn in *.
    rewrite Hbud. by rewrite <- app_assoc.
  - unfold threshold_warning. destruct (ceiling_of w m) as [c|]; [|done].
    by destruct (Py.gt total c).
Qed.

Lemma add_warns_as_summary_would_witness :
  exists total warning_add warning_summary,
    total = summary_total (Some 6)
              (clock (run (add_expense (AddArgs "Pen" 1.25%float None)) june_world))
              (store (run (add_expense (AddArgs "Pen" 1.25%float None)) june_world)) /\
    stdout (run (add_expense (AddArgs "Pen" 1.25%float None)) june_world)
      = stdout june_world ++ warning_add ++ ["Expense added successfully (ID: 4)"%string] /\
    run (main (Summary (Some 6))) (run (add_expense (AddArgs "Pen" 1.25%float None)) june_world)
      = emit_all (("Total expenses for " +:+ Py.month_name 6 +:+ ": $"
                     +:+ Py.format_2f total) :: warning_summary)
          (run (add_expense (AddArgs "Pen" 1.25%float None)) june_world) /\
    (warning_add = [] <-> warning_summary = []).
Proof.
  apply (add_warns_as_summary_would june_world (AddArgs "Pen" 1.25%float None)).
  - vm_compute. reflexivity.
  - vm_compute. split; discriminate.
Defined.

(** X6: after an accepted Add, removing the identifier just issued gives
    back the store as it was before the Add. *)
Theorem add_then_delete_restores (w : world) (args : add_args) :
  Py.le0 (add_amount args) = false ->
  store (run (delete_expense (generate_new_id (store w))) (run (add_expense args) w))
    = store w.
Proof.
  intros Hle. rewrite delete_expense_store.
  destruct (add_expense_accepted args w Hle) as [-> _].
  rewrite filter_app, filter_other_ids.
  - rewrite filter_cons_False by (intros H; by apply H).
    by rewrite filter_nil, app_nil_r.
  - intros e He. pose proof (generate_new_id_gt _ _ He). lia.
Qed.

Lemma add_then_delete_restores_witness :
  store (run (delete_expense 3) (run (add_expense (AddArgs "Pen" 1.25%float None)) rent_world))
    = store rent_world.
Proof.
  apply (add_then_delete_restores rent_world (AddArgs "Pen" 1.25%float None)).
  vm_compute. reflexivity.
Defined.

(** X7: List without filter, run after an accepted Add, shows the rows of
    the earlier records followed by the row of the new record. *)
Theorem add_then_list_shows_new_row (w : world) (args : add_args) :
  Py.le0 (add_amount args) = false ->
  let w' := run (add_expense args) w in
  let new := Expense (generate_new_id (store w)) (clock w) (add_description args)
               (Py.round2 (add_amount args)) (default "" (add_category args)) in
  run (list_expenses None) w' =
    emit_all (list_header :: Py.repeat_char "-" 50
                :: map list_row (store w) ++ [list_row new]) w'.
Proof.
  intros Hle w' new.
  assert (Hnew : new_expense args w = new).
  { unfold new. rewrite <- (new_expense_category args w). reflexivity. }
  assert (Hst : store w' = store w ++ [new]).
  { unfold w'. destruct (add_expense_accepted args w Hle) as [-> _]. by rewrite Hnew. }
  unfold run at 1. rewrite list_expenses_run. unfold by_category. cbn [Py.truthy snd].
  rewrite Hst. destruct (store w) as [|e l]; [done|].
  cbn [app map]. by rewrite map_app.
Qed.

Lemma add_then_list_shows_new_row_witness :
  stdout (run (list_expenses None) (run (add_expense (AddArgs "Pen" 1.25%float None)) rent_world))
    = ["Expense added successfully (ID: 3)"%string;
       "ID  Date        Description      Amount   Category"%string;
       "--------------------------------------------------"%string;
       "1   2024-06-01  Rent           $70.00   home"%string;
       "2   2024-06-09  Food           $50.00   food"%string;
       "3   2024-06-09  Pen            $1.25    "%string].
Proof.
  rewrite (add_then_list_shows_new_row rent_world (AddArgs "Pen" 1.25%float None)).
  - vm_compute. reflexivity.
  - vm_compute. reflexivity.
Defined.

(** ** SetBudget *)

Lemma set_budget_run args w :
  Py.le0 (bud_amount args) = false ->
  run (set_budget args) w =
    emit ("Budget of $" +:+ Py.format_2f (bud_amount args) +:+ " set for month "
            +:+ Py.month_name (bud_month args) +:+ ".")
      (World (expenses_json w)
             (Some (<[Py.str (bud_month args) := Py.round2 (bud_amount args)]>
                      (default ∅ (budget_json w))))
             (csv_files w) (clock w) (stdout w)).
Proof.
  intros Hle. unfold run, set_budget, bind, load_budget, save_budget. by rewrite Hle.
Qed.

Lemma py_str_inj m m' : Py.str m = Py.str m' -> m = m'.
Proof. unfold Py.str. apply pretty_Z_inj. Qed.

(** X8: an accepted SetBudget makes the rounded amount the ceiling of its
    month, replacing any earlier one, and leaves the ceiling of every
    other month and the expense document as they were; from then on the
    summary-time check of that month compares totals with the rounded
    amount. *)
Theorem set_budget_sets_ceiling (w : world) (m : Z) (a : float) :
  Py.le0 a = false ->
  let w' := run (set_budget (BudgetArgs m a)) w in
  ceiling_of w' m = Some (Py.round2 a) /\
  (forall m', m' <> m -> ceiling_of w' m' = ceiling_of w m') /\
  expenses_json w' = expenses_json w /\
  (forall total,
     run (show_budget_warning_if_exceeded m total) w' =
       emit_all (if Py.gt total (Py.round2 a) then [exceed_text (Py.round2 a)] else []) w').
Proof.
  intros Hle w'.
  assert (Hw' : w' = _) by exact (set_budget_run (BudgetArgs m a) w Hle).
  assert (Hc : ceiling_of w' m = Some (Py.round2 a)).
  { rewrite Hw'. unfold ceiling_of. cbn. apply lookup_insert_eq. }
  split; [exact Hc|]. split; [|split].
  - intros m' Hne. rewrite Hw'. unfold ceiling_of. cbn.
    apply lookup_insert_ne. intros Heq. apply Hne. symmetry. by apply py_str_inj.
  - by rewrite Hw'.
  - intros total. unfold run. rewrite show_budget_warning_run, Hc. reflexivity.
Qed.

Lemma set_budget_sets_ceiling_witness :
  ceiling_of (run (set_budget (BudgetArgs 6 80%float)) june_world) 6 = Some 80%float /\
  ceiling_of (run (set_budget (BudgetArgs 7 80%float)) june_world) 6 = Some 100%float.
Proof.
  split.
  - destruct (set_budget_sets_ceiling june_world 6 80%float) as (Hc & _).
    + vm_compute. reflexivity.
    + rewrite Hc. vm_compute. reflexivity.
  - destruct (set_budget_sets_ceiling june_world 7 80%float) as (_ & Ho & _).
    + vm_compute. reflexivity.
    + rewrite (Ho 6) by discriminate. vm_compute. reflexivity.
Defined.

(** X9: the last accepted SetBudget of a month wins: run after any other
    SetBudget of that month, it leaves the same budget document as run
    alone. *)
Theorem set_budget_last_wins (w : world) (m : Z) (a b : float) :
  Py.le0 b = false ->
  budget_json (run (set_budget (BudgetArgs m b)) (run (set_budget (BudgetArgs m a)) w))
    = budget_json (run (set_budget (BudgetArgs m b)) w).
Proof.
  intros Hb. rewrite !(set_budget_run (BudgetArgs m b)) by done. cbn.
  destruct (Py.le0 a) eqn:Ha.
  - unfold run, set_budget. cbn [bud_amount]. by rewrite Ha.
  - rewrite (set_budget_run (BudgetArgs m a)) by done. cbn.
    by rewrite insert_insert_eq.
Qed.

Lemma set_budget_last_wins_witness :
  budget_json (run (set_budget (BudgetArgs 6 80%float))
                 (run (set_budget (BudgetArgs 6 250%float)) june_world))
    = budget_json (run (set_budget (BudgetArgs 6 80%float)) june_world).
Proof.
  apply (set_budget_last_wins june_world 6 250%float 80%float).
  vm_compute. reflexivity.
Defined.

(** ** Update *)

(** X10: a successful Update stores, in the first record carrying the
    identifier, the description and the category given when they are
    non-empty strings and the rounded amount when one is given; a field
    without such an argument keeps its value. *)
Theorem update_sets_given_fields (w : world) (args : update_args)
    (pre post : list expense_record) (e : expense_record) :
  store w = pre ++ e :: post ->
  Forall (fun x => exp_id x <> upd_id args) pre ->
  exp_id e = upd_id args ->
  (forall a, upd_amount args = Some a -> Py.le0 a = false) ->
  let field (given : option string) (old : string) :=
    match given with
    | Some s => if decide (s = "") then old else s
    | None => old
    end in
  let e' :=
    Expense (exp_id e) (exp_date e)
      (field (upd_description args) (exp_description e))
      (match upd_amount args with Some a => Py.round2 a | None => exp_amount e end)
      (field (upd_category args) (exp_category e)) in
  run (update_expense args) w =
    emit "Expense updated successfully" (saved (pre ++ e' :: post) w).
Proof.
  intros Hst Hpre He Ha field e'.
  assert (Hrej : amount_rejected args = false).
  { unfold amount_rejected. destruct (upd_amount args) as [a|]; [by apply Ha|done]. }
  unfold run. rewrite (update_expense_match args w pre e post) by done.
  rewrite Hrej. cbn [snd]. do 3 f_equal.
  assert (Hfield : forall given old,
            (if Py.truthy given then default "" given else old) = field given old).
  { intros [s|] old; cbn; [|done].
    destruct (String.eqb_spec s "") as [->|Hne]; cbn; [done|].
    by destruct (decide (s = "")). }
  unfold e'. rewrite <- !Hfield. destruct e as [i d ds am ca]. unfold updated.
  destruct (Py.truthy (upd_category args)), (upd_amount args),
    (Py.truthy (upd_description args)); reflexivity.
Qed.

Lemma update_sets_given_fields_witness :
  run (update_expense (UpdateArgs 2 (Some "Dinner"%string) (Some 15%float) (Some ""%string)))
      rent_world
    = emit "Expense updated successfully"
        (saved [Expense 1 (Date 2024 6 1) "Rent" 70%float "home";
                Expense 2 (Date 2024 6 9) "Dinner" 15%float "food"] rent_world).
Proof.
  apply (update_sets_given_fields rent_world
           (UpdateArgs 2 (Some "Dinner"%string) (Some 15%float) (Some ""%string))
           [Expense 1 (Date 2024 6 1) "Rent" 70%float "home"] []
           (Expense 2 (Date 2024 6 9) "Food" 50%float "food")).
  - reflexivity.
  - repeat constructor. discriminate.
  - reflexivity.
  - intros a Ha. injection Ha as <-. vm_compute. reflexivity.
Defined.

Lemma updated_twice args e : updated args (updated args e) = updated args e.
Proof.
  destruct e as [i d ds am ca]. unfold updated.
  destruct (Py.truthy (upd_category args)), (upd_amount args),
    (Py.truthy (upd_description args)); reflexivity.
Qed.

(** X11: Update is idempotent on the store: running the same Update a
    second time leaves the records as the first run left them. *)
Theorem update_twice_same_store (w : world) (args : update_args) :
  store (run (update_expense args) (run (update_expense args) w))
    = store (run (update_expense args) w).
Proof.
  destruct (update_expense_cases args w)
    as [[Hall Hrun]|(pre & e & post & Hst & Hpre & He & Hrun)].
  - unfold run at 2 3. rewrite Hrun. cbn [snd].
    unfold run. rewrite update_expense_missing; [done|].
    intros x Hx. rewrite store_emit in Hx. rewrite Forall_forall in Hall. by apply Hall.
  - unfold run at 2 3. rewrite Hrun. cbn [snd].
    destruct (amount_rejected args) eqn:Hrej.
    + unfold run. rewrite (update_expense_match args _ pre e post) by done.
      by rewrite Hrej.
    + unfold run.
      rewrite (update_expense_match args _ pre (updated args e) post);
        [|done|done|by rewrite updated_id].
      rewrite Hrej. cbn [snd]. by rewrite updated_twice.
Qed.

(** ** Identifiers along a session *)

Lemma main_store c w :
  map exp_id (store (run (main c) w)) = map exp_id (store w) \/
  (exists args, c = Add args /\ store (run (main c) w) = store w ++ [new_expense args w]) \/
  (exists n, c = Delete n /\
     store (run (main c) w) = filter (fun e => exp_id e <> n) (store w)).
Proof.
  destruct c as [args|args|n|category|m|args|args]; cbn [main].
  - destruct (Py.le0 (add_amount args)) eqn:Hle.
    + left. unfold run. by rewrite add_expense_rejected.
    + right. left. exists args. split; [done|]. by apply add_expense_accepted.
  - left. apply update_expense_ids.
  - right. right. exists n. split; [done|]. apply delete_expense_store.
  - left. unfold run. rewrite list_expenses_run.
    by destruct (by_category category (store w)).
  - left. destruct m as [m|]; [destruct (month_choice m)|]; try done;
      by rewrite summary_expenses_store.
  - left. destruct (month_choice (bud_month args)); [|done]. by rewrite set_budget_store.
  - left. unfold run. rewrite export_csv_run.
    by destruct (by_category (exp_filter args) (store w)).
Qed.

Lemma session_cons d c cs w :
  run (session ((d, c) :: cs)) w = run (session cs) (run (main c) (run (set_clock d) w)).
Proof.
  unfold run. cbn [session]. unfold bind. cbn [set_clock snd].
  by destruct (main c _) as [[] w1].
Qed.

Lemma ascending_filter (P : expense_record -> Prop) `{!forall e, Decision (P e)}
    (l : list expense_record) :
  StronglySorted Z.lt (map exp_id l) -> StronglySorted Z.lt (map exp_id (filter P l)).
Proof.
  induction l as [|x l IH]; [done|]. cbn [map]. intros Hs.
  apply StronglySorted_cons in Hs as [Hall Hs]. rewrite filter_cons.
  destruct (decide (P x)); [|by apply IH].
  cbn [map]. apply StronglySorted_cons. split; [|by apply IH].
  rewrite Forall_forall in *. intros y Hy. apply Hall.
  apply list_elem_of_fmap in Hy as (e & -> & He).
  apply list_elem_of_filter in He as [_ He]. apply list_elem_of_fmap. eauto.
Qed.

Lemma main_keeps_ids_ascending c w :
  StronglySorted Z.lt (map exp_id (store w)) /\ Forall (Z.le 1) (map exp_id (store w)) ->
  StronglySorted Z.lt (map exp_id (store (run (main c) w))) /\
  Forall (Z.le 1) (map exp_id (store (run (main c) w))).
Proof.
  intros [Hs Hpos].
  destruct (main_store c w) as [->|[(args & _ & ->)|(n & _ & ->)]]; [done| |].
  - rewrite map_app. cbn [map new_expense exp_id]. split.
    + apply StronglySorted_app. split; [|split; [done|repeat constructor]].
      intros x1 x2 Hx1 Hx2. apply list_elem_of_singleton in Hx2 as ->.
      apply list_elem_of_fmap in Hx1 as (e & -> & He). by apply generate_new_id_gt.
    + apply Forall_app. split; [done|]. apply Forall_singleton.
      destruct (store w) as [|e l] eqn:E; [done|].
      pose proof (generate_new_id_gt (e :: l) e (list_elem_of_here _ _)).
      cbn [map] in Hpos. apply Forall_cons in Hpos as [He _]. lia.
  - split; [by apply ascending_filter|].
    rewrite Forall_forall in *. intros y Hy. apply Hpos.
    apply list_elem_of_fmap in Hy as (e & -> & He).
    apply list_elem_of_filter in He as [_ He]. apply list_elem_of_fmap. eauto.
Qed.

(** X12: along every session that starts from a store whose identifiers
    are positive and strictly increasing in store order (the empty store
    in particular), they stay positive and strictly increasing: the
    listing is always in ascending order of identifier. *)
Theorem session_keeps_ids_ascending (w0 : world) (cs : list (date * command)) :
  StronglySorted Z.lt (map exp_id (store w0)) ->
  Forall (Z.le 1) (map exp_id (store w0)) ->
  let w := run (session cs) w0 in
  StronglySorted Z.lt (map exp_id (store w)) /\ Forall (Z.le 1) (map exp_id (store w)).
Proof.
  intros Hs Hpos. cbv zeta. assert (Hinv := conj Hs Hpos). clear Hs Hpos.
  revert w0 Hinv. induction cs as [|[d c] cs IH]; intros w0 Hinv; [done|].
  rewrite session_cons. apply IH. by apply (main_keeps_ids_ascending c).
Qed.

Lemma session_keeps_ids_ascending_witness :
  StronglySorted Z.lt
    (map exp_id (store (run (session (two_adds ++ [(today, Delete 1)])) (fresh today)))) /\
  Forall (Z.le 1)
    (map exp_id (store (run (session (two_adds ++ [(today, Delete 1)])) (fresh today)))).
Proof.
  apply (session_keeps_ids_ascending (fresh today) (two_adds ++ [(today, Delete 1)])).
  - constructor.
  - constructor.
Defined.

(** ** Commands that only read *)

(** X13: List and ExportCSV select alike: for the same category argument
    either both find nothing (List prints its notice, ExportCSV prints
    its own and writes no file) or the rows listed and the rows written
    come from the same non-empty sequence of records, in the same
    order. *)
Theorem list_and_export_select_alike (w : world) (category : option string)
    (filename : string) :
  let wl := run (list_expenses category) w in
  let we := run (export_csv (ExportArgs filename category)) w in
  (wl = emit "No expenses found." w /\ we = emit "No expenses to export." w) \/
  (exists selected,
     selected <> [] /\
     selected `sublist_of` store w /\
     wl = emit_all (list_header :: Py.repeat_char "-" 50 :: map list_row selected) w /\
     csv_files we !! filename = Some (csv_header :: map csv_row selected)).
Proof.
  cbv zeta. unfold run. rewrite list_expenses_run, export_csv_run. cbn [snd exp_filter].
  pose proof (by_category_sublist category (store w)) as Hsub.
  destruct (by_category category (store w)) as [|e l]; [by left|].
  right. exists (e :: l). split; [done|]. split; [done|]. split; [done|].
  cbn. apply lookup_insert_eq.
Qed.

(** X14: what the commands never touch: SetBudget leaves the expense
    document alone; Add, Update and Delete leave the budget document
    alone; List and Summary change nothing at all, they only print. *)
Theorem commands_keep_other_document (w : world) :
  (forall args, expenses_json (run (main (SetBudget args)) w) = expenses_json w) /\
  (forall args, budget_json (run (main (Add args)) w) = budget_json w) /\
  (forall args, budget_json (run (main (Update args)) w) = budget_json w) /\
  (forall n, budget_json (run (main (Delete n)) w) = budget_json w) /\
  (forall category, exists lines, run (main (ListAll category)) w = emit_all lines w) /\
  (forall m, exists lines, run (main (Summary m)) w = emit_all lines w).
Proof.
  repeat split.
  - intros args. cbn [main]. destruct (month_choice (bud_month args)); [|done].
    unfold run, set_budget, bind, load_budget, save_budget.
    by destruct (Py.le0 (bud_amount args)).
  - intros args. cbn [main]. destruct (Py.le0 (add_amount args)) eqn:Hle.
    + unfold run. by rewrite add_expense_rejected.
    + by rewrite add_expense_run.
  - intros args. cbn [main]. unfold run.
    destruct (update_expense_cases args w) as [[_ ->]|(pre & e & post & _ & _ & _ & ->)];
      [done|]. by destruct (amount_rejected args).
  - intros n. cbn [main]. unfold run, delete_expense, bind, load_expenses.
    by destruct (decide _).
  - intros category. cbn [main]. unfold run. rewrite list_expenses_run. cbn [snd].
    destruct (by_category category (store w)); eexists; [|reflexivity].
    by rewrite <- emit_all_one.
  - intros m. cbn [main].
    assert (Hs : forall m', exists lines, run (summary_expenses m') w = emit_all lines w).
    { intros m'. unfold run, summary_expenses, bind, load_expenses, datetime_now.
      destruct (Py.truthy_int m').
      - unfold print. rewrite show_budget_warning_run. cbn [snd].
        eexists (_ :: _). unfold emit_all. cbn. by rewrite <- app_assoc.
      - eexists [_]. reflexivity. }
    destruct m as [m|]; [|apply Hs].
    destruct (month_choice m); [apply Hs|]. exists []. by rewrite emit_all_nil.
Qed.

(** X15: on an empty store (no expense document, or one without
    records), List prints "No expenses found.", ExportCSV prints "No
    expenses to export." and writes no file, and Summary without a month
    prints a total of 0.00; none of them changes anything else. *)
Theorem empty_store_reports (w : world) :
  store w = [] ->
  (forall category, run (list_expenses category) w = emit "No expenses found." w) /\
  (forall args, run (export_csv args) w = emit "No expenses to export." w) /\
  run (summary_expenses None) w = emit "Total expenses: $0.00" w.
Proof.
  intros Hst. split; [|split].
  - intros category. unfold run. rewrite list_expenses_run, Hst.
    unfold by_category. cbn. by destruct (Py.truthy category).
  - intros args. unfold run. rewrite export_csv_run, Hst.
    unfold by_category. cbn. by destruct (Py.truthy (exp_filter args)).
  - unfold run, summary_expenses, bind, load_expenses, datetime_now. fold (store w).
    rewrite Hst. reflexivity.
Qed.

Lemma empty_store_reports_witness :
  run (list_expenses (Some "food"%string)) (fresh today)
    = emit "No expenses found." (fresh today) /\
  run (export_csv (ExportArgs "out.csv" None)) (fresh today)
    = emit "No expenses to export." (fresh today) /\
  run (summary_expenses None) (fresh today) = emit "Total expenses: $0.00" (fresh today).
Proof.
  destruct (empty_store_reports (fresh today)) as (HL & HE & HS); [reflexivity|].
  split; [apply HL|]. split; [apply HE|exact HS].
Defined.

(** ** Months *)

Lemma main_budget c w :
  budget_json (run (main c) w) = budget_json w \/
  (exists args,
     c = SetBudget args /\ month_choice (bud_month args) = true /\
     budget_json (run (main c) w) =
       Some (<[Py.str (bud_month args) := Py.round2 (bud_amount args)]>
               (default ∅ (budget_json w)))).
Proof.
  destruct c as [args|args|n|category|m|args|args]; cbn [main].
  - left. destruct (Py.le0 (add_amount args)) eqn:Hle.
    + unfold run. by rewrite add_expense_rejected.
    + by rewrite add_expense_run.
  - left. unfold run.
    destruct (update_expense_cases args w) as [[_ ->]|(pre & e & post & _ & _ & _ & ->)];
      [done|]. by destruct (amount_rejected args).
  - left. unfold run, delete_expense, bind, load_expenses. by destruct (decide _).
  - left. unfold run. rewrite list_expenses_run.
    by destruct (by_category category (store w)).
  - left. assert (Hs : forall m', budget_json (run (summary_expenses m') w) = budget_json w).
    { intros m'. unfold run, summary_expenses, bind, load_expenses, datetime_now.
      destruct (Py.truthy_int m'); [|done].
      unfold print. by rewrite show_budget_warning_run. }
    destruct m as [m|]; [destruct (month_choice m)|]; by rewrite ?Hs.
  - destruct (month_choice (bud_month args)) eqn:Hc; [|by left].
    destruct (Py.le0 (bud_amount args)) eqn:Hle.
    + left. unfold run, set_budget. by rewrite Hle.
    + right. exists args. split; [done|]. split; [done|]. by rewrite set_budget_run.
  - left. unfold run. rewrite export_csv_run.
    by destruct (by_category (exp_filter args) (store w)).
Qed.

(** X16: the months of the budget document: along every session that
    starts from a budget document whose keys are month numbers 1 to 12
    (an absent document in particular), every key stays such a month
    number, since the parser admits no other month. *)
Theorem session_keeps_budget_months (w0 : world) (cs : list (date * command)) :
  (forall k, is_Some (default ∅ (budget_json w0) !! k) ->
     exists m, 1 <= m <= 12 /\ k = Py.str m) ->
  forall k, is_Some (default ∅ (budget_json (run (session cs) w0)) !! k) ->
    exists m, 1 <= m <= 12 /\ k = Py.str m.
Proof.
  revert w0. induction cs as [|[d c] cs IH]; intros w0 Hinv; [done|].
  rewrite session_cons. apply IH. clear IH.
  set (w1 := run (set_clock d) w0).
  assert (Hinv1 : forall k, is_Some (default ∅ (budget_json w1) !! k) ->
                    exists m, 1 <= m <= 12 /\ k = Py.str m) by exact Hinv.
  destruct (main_budget c w1) as [->|(args & _ & Hc & ->)]; [done|].
  intros k. cbn [from_option id]. rewrite lookup_insert.
  destruct (decide (Py.str (bud_month args) = k)) as [<-|Hne]; [|apply Hinv1].
  intros _. exists (bud_month args). split; [|done].
  unfold month_choice in Hc. apply andb_true_iff in Hc as [H1 H2].
  apply Z.leb_le in H1, H2. lia.
Qed.

Lemma session_keeps_budget_months_witness :
  exists m, 1 <= m <= 12 /\ "6"%string = Py.str m.
Proof.
  apply (session_keeps_budget_months (fresh today) june_session).
  - intros k [x Hx]. cbn in Hx. by rewrite lookup_empty in Hx.
  - vm_compute. by eexists.
Defined.

(** X17: an accepted Add changes the Summary total of no month other
    than the current one: the new record is dated today, so the records
    selected for another month are the same before and after. *)
Theorem add_keeps_other_month_totals (w : world) (args : add_args) (m : Z) :
  Py.le0 (add_amount args) = false ->
  1 <= m <= 12 ->
  m <> month (clock w) ->
  let w' := run (add_expense args) w in
  summary_total (Some m) (clock w') (store w') = summary_total (Some m) (clock w) (store w).
Proof.
  intros Hle Hrange Hm w'.
  assert (Hw' : w' = _) by exact (add_expense_run args w Hle).
  assert (Hstore : store w' = store w ++ [new_expense args w]) by (by rewrite Hw').
  assert (Hclock : clock w' = clock w) by (by rewrite Hw').
  assert (Ht : Py.truthy_int (Some m) = true).
  { cbn. destruct (Z.eqb_spec m 0); [lia|done]. }
  unfold summary_total, summary_filtered. rewrite Hstore, Hclock, Ht.
  rewrite filter_app, filter_cons_False, filter_nil, app_nil_r; [done|].
  unfold in_month. cbn. intros [Hmonth _]. by apply Hm.
Qed.

Lemma add_keeps_other_month_totals_witness :
  summary_total (Some 5)
      (clock (run (add_expense (AddArgs "Pen" 1.25%float None)) june_world))
      (store (run (add_expense (AddArgs "Pen" 1.25%float None)) june_world))
    = summary_total (Some 5) (clock june_world) (store june_world).
Proof.
  apply (add_keeps_other_month_totals june_world (AddArgs "Pen" 1.25%float None) 5).
  - vm_compute. reflexivity.
  - lia.
  - discriminate.
Defined.
